(** * The screenshot directive of the tutorial generator

    A shallow embedding of the screenshot directive of the code-block runner
    (the [attr], [js], [compile] and [screenshot] functions) together with the
    parts of the JavaScript runtime and of Node's [path] module it calls,
    and of the build script [src/bin/generate.ts] (its [main] and the handler
    of its failure).

    Conventions of the model:
    - a JavaScript string is a [string]; each [ascii] stands for one code unit
      below 256;
    - the numbers of an [Args] record are pixel counts and are modelled as [Z];
    - a thrown exception or rejected promise is the [inl] of a sum;
    - the outside world (directory creation, the spawned [node] process, the
      image file read back) is an explicit [World] oracle, and every call into
      it is recorded in a trace of [Effect]s. *)

From Stdlib Require Import ZArith List Bool Ascii String DecimalString Lia.
Import ListNotations.
Open Scope string_scope.

(** ** Exceptions *)

Inductive Failure : Type :=
| ParseFailure (field : string)        (* parseArgs rejected the info string *)
| AssertionFailure (message : string)  (* ts-std [assert(cond, message)] *)
| JsError (message : string)           (* [throw new Error(message)] *)
| MkdirpRejected (dir : string)
| ExecRejected (command : string)
| ImageSizeRejected (path : string).

Definition Result (A : Type) : Type := (Failure + A)%type.

Definition ok {A} (a : A) : Result A := inr a.
Definition throw {A} (e : Failure) : Result A := inl e.

Definition rbind {A B} (r : Result A) (k : A -> Result B) : Result B :=
  match r with
  | inl e => inl e
  | inr a => k a
  end.

Declare Scope result_scope.
Delimit Scope result_scope with result.
Notation "x <- r ;; k" := (rbind r (fun x => k))
  (at level 61, r at next level, right associativity) : result_scope.

(** ** JavaScript strings, [String.prototype] and [JSON.stringify] *)

Module JS.

Definition dquote : ascii := "034"%char.
Definition backslash : ascii := "092"%char.
Definition newline : ascii := "010"%char.

Definition char (c : ascii) : string := String c EmptyString.

(** The class [\s] of a regular expression, on code units below 256. *)
Definition is_space (c : ascii) : bool :=
  let n := N_of_ascii c in
  ((9 <=? n) && (n <=? 13) || (n =? 32) || (n =? 160))%N.

(** [s.split(sep)] for a separator of one character. *)
Fixpoint split (sep : ascii) (s : string) : list string :=
  match s with
  | EmptyString => [EmptyString]
  | String c s' =>
      if Ascii.eqb c sep then EmptyString :: split sep s'
      else match split sep s' with
           | h :: t => String c h :: t
           | [] => [char c]
           end
  end.

(** [s.split(/\s+/)]: the pieces between maximal runs of white space; a run at
    either end leaves an empty piece there. [in_run] tells that the previous
    character belonged to a separator. *)
Fixpoint split_spaces_from (in_run : bool) (s : string) : list string :=
  match s with
  | EmptyString => [EmptyString]
  | String c s' =>
      if is_space c then
        if in_run then split_spaces_from true s'
        else EmptyString :: split_spaces_from true s'
      else match split_spaces_from false s' with
           | h :: t => String c h :: t
           | [] => [char c]
           end
  end.

Definition split_spaces (s : string) : list string := split_spaces_from false s.

(** [s.split(/\s+/, limit)]. *)
Definition split_spaces_limit (limit : nat) (s : string) : list string :=
  firstn limit (split_spaces s).

(** [pieces.join(sep)]. *)
Fixpoint join (sep : string) (pieces : list string) : string :=
  match pieces with
  | [] => EmptyString
  | [p] => p
  | p :: rest => p ++ sep ++ join sep rest
  end.

(** [s.replace(/pat/g, callback)] for a pattern without metacharacters: every
    occurrence of [pat], found left to right without overlap, is replaced by
    what [callback] returns for the matched text; the first exception of the
    callback is the exception of the call. [skip] counts the characters of a
    match still to be passed over. *)
Fixpoint replace_from (pat : string) (callback : string -> Result string)
    (skip : nat) (s : string) : Result string :=
  match s with
  | EmptyString => ok EmptyString
  | String c s' =>
      match skip with
      | S k => replace_from pat callback k s'
      | O =>
          if (0 <? String.length pat)%nat && String.prefix pat s then
            (r <- callback pat ;;
             rest <- replace_from pat callback (String.length pat - 1) s' ;;
             ok (r ++ rest))%result
          else
            (rest <- replace_from pat callback 0 s' ;;
             ok (String c rest))%result
      end
  end.

Definition replace_all pat callback s := replace_from pat callback 0 s.

(** [s.trimRight()]. *)
Fixpoint trimRight (s : string) : string :=
  match s with
  | EmptyString => EmptyString
  | String c s' =>
      match trimRight s' with
      | EmptyString => if is_space c then EmptyString else char c
      | t => String c t
      end
  end.

(** [s.includes(t)]. *)
Fixpoint includes (t s : string) : bool :=
  String.prefix t s ||
  match s with
  | EmptyString => false
  | String _ s' => includes t s'
  end.

(** The values the directive hands to [String(...)] and [JSON.stringify]. *)
#[warnings="-register-all"]
Inductive Value : Type :=
| Undefined
| Bool (b : bool)
| Number (n : Z)
| Str (s : string)
| Object (members : list (string * Value)).

(** An integer as JavaScript prints it (in full, as it does below 10^21). *)
Definition number_to_string (n : Z) : string :=
  NilZero.string_of_int (Z.to_int n).

(** [String(v)]. *)
Definition to_String (v : Value) : string :=
  match v with
  | Undefined => "undefined"
  | Bool true => "true"
  | Bool false => "false"
  | Number n => number_to_string n
  | Str s => s
  | Object _ => "[object Object]"
  end.

Definition hex_digit (n : N) : ascii :=
  if (n <? 10)%N then ascii_of_N (48 + n) else ascii_of_N (87 + n).

(** The escape of one character inside a JSON string literal. *)
Definition escape_char (c : ascii) : string :=
  let n := N_of_ascii c in
  if Ascii.eqb c dquote then String backslash (char dquote)
  else if Ascii.eqb c backslash then String backslash (char backslash)
  else if (n =? 8)%N then String backslash "b"
  else if (n =? 9)%N then String backslash "t"
  else if (n =? 10)%N then String backslash "n"
  else if (n =? 12)%N then String backslash "f"
  else if (n =? 13)%N then String backslash "r"
  else if (n <? 32)%N then
    String backslash ("u00" ++ String (hex_digit (n / 16)) (char (hex_digit (n mod 16))))
  else char c.

Fixpoint escape (s : string) : string :=
  match s with
  | EmptyString => EmptyString
  | String c s' => escape_char c ++ escape s'
  end.

Definition quote (s : string) : string :=
  String dquote (escape s ++ char dquote).

(** [JSON.stringify(v)]; [None] is the [undefined] it returns for
    [undefined]. A member whose value is [undefined] is left out. *)
Fixpoint stringify (v : Value) : option string :=
  match v with
  | Undefined => None
  | Bool true => Some "true"
  | Bool false => Some "false"
  | Number n => Some (number_to_string n)
  | Str s => Some (quote s)
  | Object members =>
      let fix members_text (ms : list (string * Value)) : list string :=
        match ms with
        | [] => []
        | (k, x) :: ms' =>
            match stringify x with
            | Some t => (quote k ++ ":" ++ t) :: members_text ms'
            | None => members_text ms'
            end
        end in
      Some ("{" ++ join "," (members_text members) ++ "}")
  end.

(** A value spliced into a template literal: [`${v}`]. *)
Definition template (v : option string) : string :=
  match v with
  | Some s => s
  | None => "undefined"
  end.

(** [x || d] on an optional number. *)
Definition or_number (x : option Z) (d : Z) : Z :=
  match x with
  | Some n => if (n =? 0)%Z then d else n
  | None => d
  end.

(** The truth value of an optional boolean in a condition. *)
Definition truthy (b : option bool) : bool :=
  match b with
  | Some true => true
  | _ => false
  end.

(** An optional number as a member value. *)
Definition number_or_undefined (x : option Z) : Value :=
  match x with
  | Some n => Number n
  | None => Undefined
  end.

End JS.

(** ** Node's [path] module (POSIX flavour) *)

Module Path.

Definition slash : ascii := "/"%char.
Definition dot : ascii := "."%char.

Definition is_slash (c : ascii) : bool := Ascii.eqb c slash.
Definition is_dot (c : ascii) : bool := Ascii.eqb c dot.
Definition not_slash (c : ascii) : bool := negb (is_slash c).
Definition not_dot (c : ascii) : bool := negb (is_dot c).

Fixpoint take_while (p : ascii -> bool) (l : list ascii) : list ascii :=
  match l with
  | [] => []
  | c :: l' => if p c then c :: take_while p l' else []
  end.

Fixpoint drop_while (p : ascii -> bool) (l : list ascii) : list ascii :=
  match l with
  | [] => []
  | c :: l' => if p c then drop_while p l' else l
  end.

Definition chars (s : string) : list ascii := list_ascii_of_string s.
Definition text (l : list ascii) : string := string_of_list_ascii l.

(** The path read from its end: the separators that close it, and behind
    them its last component, both still reversed. *)
Definition trailing_rev (path : string) : list ascii :=
  take_while is_slash (rev (chars path)).

Definition component_rev (path : string) : list ascii :=
  take_while not_slash (drop_while is_slash (rev (chars path))).

(** The last component of a path, separators at the end ignored. *)
Definition last_component (path : string) : string :=
  text (rev (component_rev path)).

(** [path.extname(p)]: from the last dot of the last component to its end;
    empty when there is no dot, when the component starts with its only
    candidate dot, or when the component is [..]. *)
Definition extname (path : string) : string :=
  let c := component_rev path in
  let ext := take_while not_dot c in
  match drop_while not_dot c with
  | [] => EmptyString
  | [_] => EmptyString
  | _ :: _ :: _ =>
      if String.eqb (text (rev c)) ".." then EmptyString
      else text (rev (ext ++ [dot]))
  end.

(** [l] ends with [suffix], both given reversed. *)
Fixpoint starts_with (suffix l : list ascii) : bool :=
  match suffix, l with
  | [], _ => true
  | a :: suffix', b :: l' => Ascii.eqb a b && starts_with suffix' l'
  | _ :: _, [] => false
  end.

(** [path.basename(p, ext)]. The last component, without [ext] when it ends
    with it and is longer. As in Node, [ext] equal to the whole path gives the
    empty string, and a component that is a proper end of [ext] is returned
    with the separators that follow it. *)
Definition basename (path ext : string) : string :=
  let c := component_rev path in
  let e := rev (chars ext) in
  if (0 <? String.length ext)%nat && (String.length ext <=? String.length path)%nat then
    if String.eqb ext path then EmptyString
    else if (List.length e <? List.length c)%nat && starts_with e c then
      text (rev (skipn (List.length e) c))
    else if (List.length c <? List.length e)%nat && starts_with c e then
      text (rev c ++ rev (trailing_rev path))
    else text (rev c)
  else text (rev c).

(** The segments of a normalised path: a stack, its top first. [..] removes
    the segment on top unless there is none or it is [..] itself, in which case
    it is kept when the path is relative. *)
Definition push_segment (allow_above_root : bool) (stack : list string)
    (segment : string) : list string :=
  if String.eqb segment "" || String.eqb segment "." then stack
  else if String.eqb segment ".." then
    match stack with
    | [] => if allow_above_root then [".."] else []
    | top :: below =>
        if String.eqb top ".." then
          if allow_above_root then ".." :: stack else stack
        else below
    end
  else segment :: stack.

Definition normalize_string (path : string) (allow_above_root : bool) : string :=
  JS.join "/" (rev (fold_left (push_segment allow_above_root) (JS.split slash path) [])).

Definition is_absolute (path : string) : bool :=
  match path with
  | String c _ => is_slash c
  | EmptyString => false
  end.

Definition has_trailing_slash (path : string) : bool :=
  match rev (chars path) with
  | c :: _ => is_slash c
  | [] => false
  end.

(** [path.normalize(p)]. *)
Definition normalize (path : string) : string :=
  match path with
  | EmptyString => "."
  | _ =>
      let body := normalize_string path (negb (is_absolute path)) in
      match body with
      | EmptyString =>
          if is_absolute path then "/"
          else if has_trailing_slash path then "./" else "."
      | _ =>
          let body' := if has_trailing_slash path then body ++ "/" else body in
          if is_absolute path then "/" ++ body' else body'
      end
  end.

(** [path.join(...parts)]: the non-empty parts, separated by [/], normalised. *)
Definition join (parts : list string) : string :=
  match filter (fun p => negb (String.eqb p "")) parts with
  | [] => "."
  | nonempty => normalize (JS.join "/" nonempty)
  end.

End Path.

(** ** The directive *)

(** *** Data *)

(** Modelled from the spec: the argument parser ([../parse-args]) is not among
    the sources. Following section 4.1 it checks a block's info string against
    a schema of required and optional fields and fills in the defaults of the
    optional ones. The decoding of the info string into keys and coerced
    values is not modelled: [Fields] holds, for each field of the schema of the
    directive, the coerced value the info string gives it, if any. *)
Record Fields : Type := {
  given_filename : option string;
  given_alt : option string;
  given_width : option Z;
  given_height : option Z;
  given_x : option Z;
  given_y : option Z;
  given_retina : option bool
}.

Record Args : Type := {
  filename : string;
  alt : string;
  width : Z;
  height : option Z;
  x : option Z;
  y : option Z;
  retina : option bool
}.

Record Options : Type := { assets : string }.

(** The file being processed. Its basename, when known, is the last part of
    its path: [vfile] refuses one that holds a separator. *)
Record VFile : Type := { vfile_basename : option string }.

Inductive Effect : Type :=
| Mkdirp (dir : string)
| ConsoleLog (text : string)
| Exec (command stdin : string)
| ImageSize (path : string).

(** What the environment answers: whether the directory can be created,
    whether the [node] process fed with a script exits with status zero, and
    the pixel size of the image at a path. *)
Record World : Type := {
  mkdirp_succeeds : string -> bool;
  node_succeeds : string -> bool;
  image_size : string -> option (Z * Z)
}.

(** A computation that may call into the world: the effects performed, in
    order, and how it ended. *)
Definition Run (A : Type) : Type := (list Effect * Result A)%type.

Definition pure {A} (r : Result A) : Run A := ([], r).

Definition perform {A} (e : Effect) (r : Result A) : Run A := ([e], r).

Definition run_bind {A B} (m : Run A) (k : A -> Run B) : Run B :=
  match m with
  | (trace, inl e) => (trace, inl e)
  | (trace, inr a) => let (trace', r) := k a in ((trace ++ trace')%list, r)
  end.

Declare Scope run_scope.
Delimit Scope run_scope with run.
Notation "x <~ m ;; k" := (run_bind m (fun x => k))
  (at level 61, m at next level, right associativity) : run_scope.
Notation "m ;;; k" := (run_bind m (fun _ => k))
  (at level 61, right associativity) : run_scope.

Definition trace_of {A} (m : Run A) : list Effect := fst m.
Definition outcome {A} (m : Run A) : Result A := snd m.

Definition assert (cond : bool) (message : string) : Result unit :=
  if cond then ok tt else throw (AssertionFailure message).

(** Modelled from the spec: the field descriptors [required] and [optional]
    of [../parse-args], applied to a value already coerced. *)
Definition required {A} (name : string) (given : option A) : Result A :=
  match given with
  | Some a => ok a
  | None => throw (ParseFailure name)
  end.

Definition optional {A} (given : option A) (default : A) : option A :=
  match given with
  | Some a => Some a
  | None => Some default
  end.

Section Directive.

Variables Position Data : Type.

(** The [Code] node of the markdown tree, with its info string as [Fields]. *)
Record Code : Type := {
  meta : Fields;
  value : string;
  position : option Position;
  data : option Data
}.

Inductive Node : Type :=
| Image (url alt : string) (position : option Position) (data : option Data)
| HTML (value : string) (position : option Position) (data : option Data).

Definition node_position (n : Node) : option Position :=
  match n with
  | Image _ _ p _ => p
  | HTML _ p _ => p
  end.

Definition node_data (n : Node) : option Data :=
  match n with
  | Image _ _ _ d => d
  | HTML _ _ d => d
  end.

(** Modelled from the spec: [parseArgs] comes from [../parse-args], which is
    not among the sources. The schema is the one the directive passes to it:
    [filename], [alt] and [width] are required; [height], [x] and [y] default
    to 0 and [retina] to [false]. A required field that is missing is a
    failure raised before anything else happens. *)
Definition parseArgs (node : Code) : Result Args :=
  let f := meta node in
  (filename <- required "filename" (given_filename f) ;;
   alt <- required "alt" (given_alt f) ;;
   width <- required "width" (given_width f) ;;
   ok {| filename := filename;
         alt := alt;
         width := width;
         height := optional (given_height f) 0%Z;
         x := optional (given_x f) 0%Z;
         y := optional (given_y f) 0%Z;
         retina := optional (given_retina f) false |})%result.

(** *** [js] and [attr] *)

Definition js (v : JS.Value) : option string := JS.stringify v.

Definition escape_pattern : string :=
  String "<" (String ">" (JS.char JS.dquote)).

Definition escape_callback (c : string) : Result string :=
  if String.eqb c "<" then ok "&lt;"
  else if String.eqb c ">" then ok "&gt;"
  else if String.eqb c (JS.char JS.dquote) then ok "&quot;"
  else throw (JsError ("Unknown character: `" ++ c ++ "`")).

Definition attr (v : JS.Value) : Result string :=
  (escaped <- JS.replace_all escape_pattern escape_callback (JS.to_String v) ;;
   ok (JS.template (JS.stringify (JS.Str escaped))))%result.

(** *** [compile] *)

Definition is_zero (n : option Z) : bool :=
  match n with
  | Some z => (z =? 0)%Z
  | None => false
  end.

Definition viewport (args : Args) : JS.Value :=
  JS.Object [
    ("width", JS.Number (width args));
    ("height", JS.Number (JS.or_number (height args) 100));
    ("deviceScaleFactor", JS.Number (if JS.truthy (retina args) then 2 else 1))
  ].

Definition screenshot_options (path : string) (args : Args) : JS.Value :=
  if is_zero (height args) then
    JS.Object [
      ("path", JS.Str path);
      ("type", JS.Str "png");
      ("fullPage", JS.Bool true)
    ]
  else
    JS.Object [
      ("path", JS.Str path);
      ("type", JS.Str "png");
      ("clip", JS.Object [
         ("width", JS.Number (width args));
         ("height", JS.number_or_undefined (height args));
         ("x", JS.number_or_undefined (x args));
         ("y", JS.number_or_undefined (y args))
       ])
    ].

Definition header (args : Args) : string :=
"const puppeteer = require('puppeteer');

async function main() {
  let browser = await puppeteer.launch();
  let page = await browser.newPage();
  await page.setViewport(" ++ JS.template (js (viewport args)) ++ ");
".

Definition footer (path : string) (args : Args) : string :=
"
  await page.$$eval('img', async imgs => {
    for (let img of imgs) {
      if (!img.complete || img.naturalHeight === 0) {
        await new Promise((resolve, reject) => {
          img.onload = resolve;
          img.onerror = () => reject(`failed to load ${img.src}`);
        });
      }
    }
  });
  await page.screenshot(" ++ JS.template (js (screenshot_options path args)) ++ ");
  await browser.close();
}

main().catch(error => {
  console.error(error);
  process.exit(1);
});
".

Definition string_or_undefined (s : option string) : JS.Value :=
  match s with
  | Some t => JS.Str t
  | None => JS.Undefined
  end.

Definition goto_line (arg : option string) : string :=
  "  await page.goto(" ++ JS.template (js (string_or_undefined arg))
    ++ ", { waitUtil: 'networkidle0' });".

Definition wait_line (arg : option string) : string :=
  "  await page.waitForSelector(" ++ JS.template (js (string_or_undefined arg)) ++ ");".

Definition is_action (name : string) (action : option string) : bool :=
  match action with
  | Some a => String.eqb a name
  | None => false
  end.

(** The body of the loop over the lines of the block. *)
Definition push_step (script : list string) (step : string) : Result (list string) :=
  if String.eqb step "" then ok script
  else
    let parts := JS.split_spaces_limit 2 step in
    let action := nth_error parts 0 in
    let arg := nth_error parts 1 in
    if is_action "visit" action then ok (script ++ [goto_line arg])%list
    else if is_action "wait" action then ok (script ++ [wait_line arg])%list
    else throw (JsError ("Unknown action: " ++ JS.template action)).

Fixpoint push_steps (script : list string) (steps : list string) : Result (list string) :=
  match steps with
  | [] => ok script
  | step :: rest =>
      (script' <- push_step script step ;; push_steps script' rest)%result
  end.

Definition compile (steps path : string) (args : Args) : Result string :=
  (script <- push_steps [header args] (JS.split JS.newline steps) ;;
   ok (JS.join (JS.char JS.newline) (script ++ [footer path args])%list))%result.

(** *** [screenshot] *)

Definition has_basename (vfile : VFile) : bool :=
  match vfile_basename vfile with
  | Some b => negb (String.eqb b "")
  | None => false
  end.

Definition basename_of (vfile : VFile) : string :=
  match vfile_basename vfile with
  | Some b => b
  | None => "undefined"
  end.

Definition validate (args : Args) (vfile : VFile) : Result unit :=
  (_ <- assert (has_basename vfile) "unknown basename" ;;
   _ <- assert (String.eqb (Path.extname (filename args)) ".png")
          ("filename must have .png extnsion (" ++ filename args ++ ")") ;;
   _ <- assert (0 <? width args)%Z "width must be positive" ;;
   assert (negb (is_zero (height args)) || (is_zero (x args) && is_zero (y args)))
     "cannot specify x and y for fullscreen screenshots (height=0)")%result.

Definition namespace_of (vfile : VFile) : string :=
  Path.basename (basename_of vfile) ".md".

Definition directory (options : Options) (vfile : VFile) : string :=
  Path.join [assets options; "screenshots"; namespace_of vfile].

Definition output_filename (args : Args) : string :=
  if JS.truthy (retina args) then Path.basename (filename args) ".png" ++ "@2x.png"
  else filename args.

Definition mkdirp (world : World) (dir : string) : Run unit :=
  perform (Mkdirp dir)
    (if mkdirp_succeeds world dir then ok tt else throw (MkdirpRejected dir)).

Definition console_log (text : string) : Run unit :=
  perform (ConsoleLog text) (ok tt).

Definition exec_node (world : World) (script : string) : Run unit :=
  perform (Exec "node -" script)
    (if node_succeeds world script then ok tt else throw (ExecRejected "node -")).

Definition imageSize (world : World) (path : string) : Run (Z * Z) :=
  perform (ImageSize path)
    (match image_size world path with
     | Some size => ok size
     | None => throw (ImageSizeRejected path)
     end).

Definition img_tag (src alt : string) (width height : Z) : Result string :=
  (s <- attr (JS.Str src) ;;
   a <- attr (JS.Str alt) ;;
   w <- attr (JS.Number width) ;;
   h <- attr (JS.Number height) ;;
   ok ("<img src=" ++ s ++ " alt=" ++ a ++ " width=" ++ w ++ " height=" ++ h ++ ">"))%result.

Definition screenshot (world : World) (node : Code) (options : Options)
    (vfile : VFile) : Run Node :=
  (args <~ pure (parseArgs node) ;;
   pure (validate args vfile) ;;;
   let namespace := namespace_of vfile in
   let dir := directory options vfile in
   let filename := output_filename args in
   mkdirp world dir ;;;
   let path := Path.join [dir; filename] in
   script <~ pure (compile (value node) path args) ;;
   console_log ("$ node -" ++ JS.char JS.newline ++ JS.trimRight script) ;;;
   exec_node world script ;;;
   let src := "/screenshots/" ++ namespace ++ "/" ++ filename in
   if JS.truthy (retina args) then
     size <~ imageSize world path ;;
     let width := (fst size / 2)%Z in
     let height := (snd size / 2)%Z in
     tag <~ pure (img_tag src (alt args) width height) ;;
     pure (ok (HTML tag (position node) (data node)))
   else
     pure (ok (Image src (alt args) (position node) (data node))))%run.

End Directive.

Arguments meta {Position Data}.
Arguments value {Position Data}.
Arguments position {Position Data}.
Arguments data {Position Data}.
Arguments Image {Position Data}.
Arguments HTML {Position Data}.
Arguments node_position {Position Data}.
Arguments node_data {Position Data}.
Arguments parseArgs {Position Data}.
Arguments screenshot {Position Data}.

(** ** Vocabulary of the statements *)

(** [s.endsWith(suffix)]. *)
Definition ends_with (suffix s : string) : bool :=
  Path.starts_with (rev (Path.chars suffix)) (rev (Path.chars s)).

Definition without_trailing_slashes (path : string) : string :=
  Path.text (rev (Path.drop_while Path.is_slash (rev (Path.chars path)))).

(** A plain name: no separator in it. *)
Definition no_slash (s : string) : Prop :=
  forallb Path.not_slash (Path.chars s) = true.

Definition no_space (s : string) : Prop :=
  forallb (fun c => negb (JS.is_space c)) (Path.chars s) = true.

Definition all_space (s : string) : Prop :=
  forallb JS.is_space (Path.chars s) = true.

(** The lines of a block that are not empty, in order. *)
Definition nonempty_lines (body : string) : list string :=
  filter (fun line => negb (String.eqb line "")) (JS.split JS.newline body).

(** The first and second piece of a line cut at its runs of white space. *)
Definition first_token (line : string) : string :=
  hd EmptyString (JS.split_spaces line).

Definition second_token (line : string) : option string :=
  nth_error (JS.split_spaces line) 1.

(** The statement a line of the mini-language stands for, if any. *)
Definition step_of (line : string) : option string :=
  if String.eqb (first_token line) "visit" then Some (goto_line (second_token line))
  else if String.eqb (first_token line) "wait" then Some (wait_line (second_token line))
  else None.

(** The value of a member of an object. *)
Definition member (key : string) (v : JS.Value) : option JS.Value :=
  match v with
  | JS.Object members =>
      option_map snd (find (fun m => String.eqb (fst m) key) members)
  | _ => None
  end.

(** How an argument reads in the program: its JSON string literal, or the
    word [undefined] when the line gives none. *)
Definition argument_text (arg : option string) : string :=
  match arg with
  | Some t => JS.quote t
  | None => "undefined"
  end.


Definition is_exec (e : Effect) : bool :=
  match e with
  | Exec _ _ => true
  | _ => false
  end.

(** A character that [attr] and [JSON.stringify] leave as it is. *)
Definition plain_char (c : ascii) : bool :=
  negb (Ascii.eqb c JS.dquote) && negb (Ascii.eqb c JS.backslash)
  && negb (N_of_ascii c <? 32)%N && negb (Ascii.eqb c "<").





Definition is_image_size (e : Effect) : bool :=
  match e with
  | ImageSize _ => true
  | _ => false
  end.

(** ** The build script ([src/bin/generate.ts]) *)

Module Generate.

Inductive Effect : Type :=
| Ncp (source destination : string)
| Mkdirp (dir : string)
| Glob (pattern : string)
| ConsoleLog (text : string)
| ReadFile (path : string)
| Process (path contents : string)
| WriteFile (path contents : string)
| ConsoleError (failure : Failure)
| Exit (status : Z).

(** The options handed to the code-block runner. *)
Record Config : Type := {
  cfg : list string;
  cwd : string;
  assets : string
}.

(** How the script is started: [process.cwd()], [process.argv[2]] and
    [process.env.CI]. *)
Record Invocation : Type := {
  project : string;
  argument : option string;
  env_CI : option string
}.

(** The collaborators of the script, over a state [W] of the outside world
    that each call may change: the promisified [ncp], [mkdirp], [glob],
    [readFile] and [writeFile], the [process] method of the configured
    processor, and [path.relative]. *)
Record System (W : Type) : Type := {
  ncp : W -> string -> string -> Result W;
  mkdirp : W -> string -> Result W;
  glob : W -> string -> Result (list string * W);
  readFile : W -> string -> Result (string * W);
  process : W -> Config -> string -> string -> Result (string * W);
  writeFile : W -> string -> string -> Result W;
  relative : string -> string -> string
}.

Arguments ncp {W}.
Arguments mkdirp {W}.
Arguments glob {W}.
Arguments readFile {W}.
Arguments process {W}.
Arguments writeFile {W}.
Arguments relative {W}.

(** A computation of the script: from a state of the world to the effects
    performed and either a failure or a value with the new state. *)
Definition Build (W A : Type) : Type := W -> list Effect * Result (A * W).

Definition ret {W A} (a : A) : Build W A := fun w => ([], inr (a, w)).

Definition bind {W A B} (m : Build W A) (k : A -> Build W B) : Build W B :=
  fun w =>
    match m w with
    | (trace, inl e) => (trace, inl e)
    | (trace, inr (a, w')) =>
        let (trace', r) := k a w' in ((trace ++ trace')%list, r)
    end.

(** A call that changes the world and returns nothing. *)
Definition call {W} (e : Effect) (f : W -> Result W) : Build W unit :=
  fun w =>
    ([e], match f w with
          | inl failure => inl failure
          | inr w' => inr (tt, w')
          end).

(** A call that returns a value. *)
Definition ask {W A} (e : Effect) (f : W -> Result (A * W)) : Build W A :=
  fun w => ([e], f w).

Definition log {W} (text : string) : Build W unit :=
  fun w => ([ConsoleLog text], inr (tt, w)).

(** [for (let x of xs) { await body(x) }]. *)
Fixpoint for_each {W A} (body : A -> Build W unit) (xs : list A) : Build W unit :=
  match xs with
  | [] => ret tt
  | x :: rest => bind (body x) (fun _ => for_each body rest)
  end.

(** [s || d] on an optional string. *)
Definition or_string (s : option string) (d : string) : string :=
  match s with
  | Some t => if String.eqb t "" then d else t
  | None => d
  end.

(** The truth value of an optional string in a condition. *)
Definition truthy_string (s : option string) : bool :=
  match s with
  | Some t => negb (String.eqb t "")
  | None => false
  end.

Definition assetsDir (inv : Invocation) : string :=
  Path.join [project inv; "dist"; "assets"].

Definition outDir (inv : Invocation) : string :=
  Path.join [project inv; "dist"; "chapters"].

Definition codeDir (inv : Invocation) : string :=
  Path.join [project inv; "dist"; "code"].

Definition pattern (inv : Invocation) : string :=
  or_string (argument inv) (Path.join ["src"; "chapters"; "*.md"]).

Definition config (inv : Invocation) : Config := {|
  cfg := if truthy_string (env_CI inv) then ["ci"] else [];
  cwd := codeDir inv;
  assets := assetsDir inv
|}.

Definition outputPath (inv : Invocation) (inputPath : string) : string :=
  Path.join [project inv; "dist"; "chapters"; Path.basename inputPath ""].

Section Script.

Variable W : Type.
Variable sys : System W.
Variable inv : Invocation.

(** Everything before the loop. *)
Definition setup : Build W (list string) :=
  bind (call (Ncp (Path.join [project inv; "src"; "assets"]) (assetsDir inv))
          (fun w => ncp sys w (Path.join [project inv; "src"; "assets"]) (assetsDir inv)))
    (fun _ =>
  bind (call (Mkdirp (outDir inv)) (fun w => mkdirp sys w (outDir inv))) (fun _ =>
  bind (call (Mkdirp (codeDir inv)) (fun w => mkdirp sys w (codeDir inv))) (fun _ =>
  ask (Glob (pattern inv)) (fun w => glob sys w (pattern inv))))).

(** The body of the loop over the chapters. *)
Definition chapter (inputPath : string) : Build W unit :=
  let relativePath := relative sys (project inv) inputPath in
  let filename := Path.basename inputPath "" in
  bind (log ("Processing " ++ filename)) (fun _ =>
  bind (ask (ReadFile inputPath) (fun w => readFile sys w inputPath)) (fun contents =>
  bind (ask (Process relativePath contents)
          (fun w => process sys w (config inv) relativePath contents)) (fun result =>
  call (WriteFile (outputPath inv inputPath) result)
    (fun w => writeFile sys w (outputPath inv inputPath) result)))).

Definition main : Build W unit :=
  bind setup (for_each chapter).

(** [main().catch(error => { console.error(error); process.exit(1); })]. *)
Definition run (w : W) : list Effect :=
  match main w with
  | (trace, inl failure) => (trace ++ [ConsoleError failure; Exit 1])%list
  | (trace, inr _) => trace
  end.

End Script.

Arguments setup {W}.
Arguments chapter {W}.
Arguments main {W}.
Arguments run {W}.

(** The paths of the calls of [writeFile] and of [readFile], in order,
    whether or not the call succeeded. *)
Definition written (trace : list Effect) : list string :=
  flat_map (fun e => match e with WriteFile p _ => [p] | _ => [] end) trace.

Definition read (trace : list Effect) : list string :=
  flat_map (fun e => match e with ReadFile p => [p] | _ => [] end) trace.

Definition the_setup (inv : Invocation) : list Effect :=
  [Ncp (Path.join [project inv; "src"; "assets"]) (assetsDir inv);
   Mkdirp (outDir inv); Mkdirp (codeDir inv); Glob (pattern inv)].

(** The chapters of a list have been built, one after the other, from one
    state of the world to another: each was read, its contents were processed
    under its relative path, and the result was written with success at its
    output path. *)
Inductive built {W} (sys : System W) (inv : Invocation) : list string -> W -> W -> Prop :=
| built_nil w : built sys inv [] w w
| built_cons inputPath rest w w1 w2 w3 w' contents result :
    readFile sys w inputPath = inr (contents, w1) ->
    process sys w1 (config inv) (relative sys (project inv) inputPath) contents
    = inr (result, w2) ->
    writeFile sys w2 (outputPath inv inputPath) result = inr w3 ->
    built sys inv rest w3 w' ->
    built sys inv (inputPath :: rest) w w'.

(** A world without state in which every call succeeds; [glob] finds two
    chapters and the processor returns the text it is given. *)
Definition sample_system : System unit := {|
  ncp := fun w _ _ => inr w;
  mkdirp := fun w _ => inr w;
  glob := fun w _ => inr (["src/chapters/01-intro.md"; "src/chapters/02-more.md"], w);
  readFile := fun w p => inr ("contents of " ++ p, w);
  process := fun w _ _ contents => inr (contents, w);
  writeFile := fun w _ _ => inr w;
  relative := fun _ p => p
|}.

Definition sample_invocation : Invocation :=
  {| project := "/project"; argument := None; env_CI := None |}.

End Generate.

(** Sample inputs. *)
Module Sample.

Definition world : World := {|
  mkdirp_succeeds := fun _ => true;
  node_succeeds := fun _ => true;
  image_size := fun _ => Some (2048, 1001)%Z
|}.

Definition options : Options := {| assets := "/project/dist/assets" |}.

Definition vfile : VFile := {| vfile_basename := Some "chapter.md" |}.

Definition fields (name : string) (h dx : option Z) (r : option bool) : Fields := {|
  given_filename := Some name;
  given_alt := Some "The <Rental> component";
  given_width := Some 1024%Z;
  given_height := h;
  given_x := dx;
  given_y := None;
  given_retina := r
|}.

Definition args : Args := {|
  filename := "shot.png";
  alt := "A screenshot";
  width := 800;
  height := Some 0%Z;
  x := Some 0%Z;
  y := Some 0%Z;
  retina := Some false
|}.

Definition body : string :=
"visit http://localhost:4200/
wait  .rentals li:nth-of-type(3) article.rental
".

Definition block (f : Fields) : Code nat unit :=
  {| meta := f; value := body; position := Some 7; data := None |}.

End Sample.

(** * Properties *)

(** ** The shape of a run of the handler *)

Ltac run_step :=
  cbn [run_bind pure perform mkdirp console_log exec_node imageSize
       trace_of outcome fst snd app ok throw].

Section Runs.

Variables Position Data : Type.
Variable world : World.
Variable node : Code Position Data.
Variable options : Options.
Variable vfile : VFile.

Lemma screenshot_parse_failure failure :
  parseArgs node = inl failure ->
  screenshot world node options vfile = ([], inl failure).
Proof.
  intros H. unfold screenshot. rewrite H. reflexivity.
Qed.

Lemma screenshot_validation_failure args failure :
  parseArgs node = inr args ->
  validate args vfile = inl failure ->
  screenshot world node options vfile = ([], inl failure).
Proof.
  intros Hp Hv. unfold screenshot. rewrite Hp. run_step. rewrite Hv. reflexivity.
Qed.

Lemma screenshot_compile_failure args failure :
  parseArgs node = inr args ->
  validate args vfile = inr tt ->
  compile (value node)
    (Path.join [directory options vfile; output_filename args]) args = inl failure ->
  trace_of (screenshot world node options vfile) = [Mkdirp (directory options vfile)]
  /\ exists failure', outcome (screenshot world node options vfile) = inl failure'.
Proof.
  intros Hp Hv Hc. unfold screenshot. rewrite Hp. run_step. rewrite Hv. run_step.
  destruct (mkdirp_succeeds world _); run_step.
  - rewrite Hc. run_step. split; [reflexivity | eauto].
  - split; [reflexivity | eauto].
Qed.

Lemma screenshot_success n :
  outcome (screenshot world node options vfile) = inr n ->
  exists args script,
    parseArgs node = inr args /\
    validate args vfile = inr tt /\
    let dir := directory options vfile in
    let path := Path.join [dir; output_filename args] in
    let src := "/screenshots/" ++ namespace_of vfile ++ "/" ++ output_filename args in
    let log := ConsoleLog ("$ node -" ++ JS.char JS.newline ++ JS.trimRight script) in
    compile (value node) path args = inr script /\
    node_succeeds world script = true /\
    if JS.truthy (retina args) then
      exists size tag,
        image_size world path = Some size /\
        img_tag src (alt args) (fst size / 2) (snd size / 2) = inr tag /\
        n = HTML tag (position node) (data node) /\
        trace_of (screenshot world node options vfile)
        = [Mkdirp dir; log; Exec "node -" script; ImageSize path]
    else
      n = Image src (alt args) (position node) (data node) /\
      trace_of (screenshot world node options vfile)
      = [Mkdirp dir; log; Exec "node -" script].
Proof.
  unfold screenshot.
  destruct (parseArgs node) as [e|args] eqn:Hp; run_step; [discriminate|].
  destruct (validate args vfile) as [e|[]] eqn:Hv; run_step; [discriminate|].
  destruct (mkdirp_succeeds world _) eqn:Hm; run_step; [|discriminate].
  destruct (compile _ _ args) as [e|script] eqn:Hc; run_step; [discriminate|].
  destruct (node_succeeds world script) eqn:Hn; run_step; [|discriminate].
  destruct (JS.truthy (retina args)) eqn:Hr; run_step.
  - destruct (image_size world _) as [size|] eqn:Hs; run_step; [|discriminate].
    destruct (img_tag _ _ _ _) as [e|tag] eqn:Ht; run_step; [discriminate|].
    intros [= <-]. exists args, script. rewrite Hr.
    do 4 (split; [reflexivity || assumption|]).
    exists size, tag. repeat split; assumption.
  - intros [= <-]. exists args, script. rewrite Hr.
    do 4 (split; [reflexivity || assumption|]). split; reflexivity.
Qed.

End Runs.

(** ** Source position and data *)

(** C9. Whenever the handler succeeds, the node it returns, be it an image
    node or a raw HTML node, has the [position] and the [data] of the code
    block it replaces. *)
Theorem screenshot_keeps_position_and_data
    (Position Data : Type) (world : World) (node : Code Position Data)
    (options : Options) (vfile : VFile) (n : Node Position Data) :
  outcome (screenshot world node options vfile) = inr n ->
  node_position n = position node /\ node_data n = data node.
Proof.
  intros H. apply screenshot_success in H.
  destruct H as (args & script & _ & _ & _ & _ & H).
  destruct (JS.truthy (retina args)).
  - destruct H as (size & tag & _ & _ & -> & _). split; reflexivity.
  - destruct H as (-> & _). split; reflexivity.
Qed.

(** ** Validation *)

Lemma parseArgs_fields (Position Data : Type) (node : Code Position Data) args :
  parseArgs node = inr args ->
  given_filename (meta node) = Some (filename args) /\
  given_alt (meta node) = Some (alt args) /\
  given_width (meta node) = Some (width args) /\
  height args = optional (given_height (meta node)) 0%Z /\
  x args = optional (given_x (meta node)) 0%Z /\
  y args = optional (given_y (meta node)) 0%Z /\
  retina args = optional (given_retina (meta node)) false.
Proof.
  unfold parseArgs.
  destruct (given_filename (meta node)); [|discriminate].
  destruct (given_alt (meta node)); [|discriminate].
  destruct (given_width (meta node)); [|discriminate].
  cbn. intros [= <-]. cbn. repeat split; reflexivity.
Qed.

Lemma is_zero_false n d :
  optional n d <> Some 0%Z -> is_zero (optional n d) = false.
Proof.
  destruct n as [k|]; cbn; intros H.
  - destruct (Z.eqb_spec k 0); [subst; congruence | reflexivity].
  - destruct (Z.eqb_spec d 0); [subst; congruence | reflexivity].
Qed.

(** C4, as the code has it. In full-page mode (height 0, given or
    defaulted) a non-zero [x] or [y] makes the handler fail without any effect
    performed; and when the checks that come first pass (the document has a
    basename, the file name has the extension [.png], the width is positive),
    the failure is the assertion whose message names [x and y] and
    [height=0]. *)
Theorem full_page_offset_rejected
    (Position Data : Type) (world : World) (node : Code Position Data)
    (options : Options) (vfile : VFile) (args : Args) :
  parseArgs node = inr args ->
  given_height (meta node) = None \/ given_height (meta node) = Some 0%Z ->
  x args <> Some 0%Z \/ y args <> Some 0%Z ->
  exists failure,
    screenshot world node options vfile = ([], inl failure) /\
    (has_basename vfile = true ->
     Path.extname (filename args) = ".png" ->
     (0 < width args)%Z ->
     failure = AssertionFailure
                 "cannot specify x and y for fullscreen screenshots (height=0)").
Proof.
  intros Hp Hh Hxy.
  destruct (parseArgs_fields _ _ _ _ Hp) as (_ & _ & _ & Eh & Ex & Ey & _).
  assert (Hz : is_zero (height args) = true).
  { rewrite Eh. destruct Hh as [-> | ->]; reflexivity. }
  assert (Ho : is_zero (x args) && is_zero (y args) = false).
  { destruct Hxy as [H|H].
    - rewrite Ex in *. rewrite (is_zero_false _ _ H). reflexivity.
    - rewrite Ey in *. rewrite (is_zero_false _ _ H). apply andb_false_r. }
  assert (Hv : exists failure, validate args vfile = inl failure /\
            (has_basename vfile = true ->
             Path.extname (filename args) = ".png" ->
             (0 < width args)%Z ->
             failure = AssertionFailure
                 "cannot specify x and y for fullscreen screenshots (height=0)")).
  { unfold validate. rewrite Hz, Ho.
    destruct (has_basename vfile); cbn [assert rbind ok throw negb orb].
    - destruct (String.eqb_spec (Path.extname (filename args)) ".png") as [E|E];
        cbn [assert rbind ok throw].
      + destruct (Z.ltb_spec 0 (width args)); cbn [assert rbind ok throw].
        * eexists; split; [reflexivity | auto].
        * eexists; split; [reflexivity | intros; lia].
      + eexists; split; [reflexivity | intros; contradiction].
    - eexists; split; [reflexivity | discriminate]. }
  destruct Hv as (failure & Hv & Hmsg).
  exists failure. split; [|exact Hmsg].
  eapply screenshot_validation_failure; eassumption.
Qed.

Lemma full_page_offset_rejected_witness :
  screenshot Sample.world
    (Sample.block (Sample.fields "shot.png" None (Some 5%Z) None))
    Sample.options Sample.vfile
  = ([], inl (AssertionFailure
                "cannot specify x and y for fullscreen screenshots (height=0)")).
Proof.
  destruct (full_page_offset_rejected nat unit Sample.world
              (Sample.block (Sample.fields "shot.png" None (Some 5%Z) None))
              Sample.options Sample.vfile
              {| filename := "shot.png"; alt := "The <Rental> component";
                 width := 1024; height := Some 0%Z; x := Some 5%Z;
                 y := Some 0%Z; retina := Some false |})
    as (failure & Hrun & Hmsg).
  - reflexivity.
  - left; reflexivity.
  - left; discriminate.
  - rewrite Hrun, Hmsg; [reflexivity | reflexivity | reflexivity | reflexivity].
Defined.

(** C4, as stated, fails for the message: with the file name [shot.jpeg],
    no height and [x] 5 the handler fails without effect, but on the check of
    the extension, which comes first; its message names the file, and neither
    [y] nor the height. *)
Lemma full_page_offset_hidden_by_extension :
  let message := "filename must have .png extnsion (shot.jpeg)" in
  parseArgs (Sample.block (Sample.fields "shot.jpeg" None (Some 5%Z) None))
  = inr {| filename := "shot.jpeg"; alt := "The <Rental> component";
           width := 1024; height := Some 0%Z; x := Some 5%Z; y := Some 0%Z;
           retina := Some false |} /\
  screenshot Sample.world
    (Sample.block (Sample.fields "shot.jpeg" None (Some 5%Z) None))
    Sample.options Sample.vfile
  = ([], inl (AssertionFailure message)) /\
  JS.includes "y" message = false /\
  JS.includes "height" message = false /\
  message <> "cannot specify x and y for fullscreen screenshots (height=0)".
Proof.
  cbv zeta. repeat split; try reflexivity. discriminate.
Qed.

(** ** Facts about the [path] functions *)

Module PathFacts.
Import Path.

Lemma chars_text l : chars (text l) = l.
Proof. apply list_ascii_of_string_of_list_ascii. Qed.

Lemma text_chars s : text (chars s) = s.
Proof. apply string_of_list_ascii_of_string. Qed.

Lemma take_drop_while p l : (take_while p l ++ drop_while p l)%list = l.
Proof.
  induction l as [|c l IH]; cbn; [reflexivity|].
  destruct (p c); cbn; [f_equal; exact IH | reflexivity].
Qed.

Lemma drop_while_head p l c rest : drop_while p l = c :: rest -> p c = false.
Proof.
  induction l as [|a l IH]; cbn; [discriminate|].
  destruct (p a) eqn:E; [exact IH|].
  intros [= <- _]. exact E.
Qed.

Lemma take_while_all p l : forallb p l = true -> take_while p l = l.
Proof.
  induction l as [|c l IH]; cbn; [reflexivity|].
  destruct (p c); cbn; [intros H; f_equal; auto | discriminate].
Qed.

Lemma drop_while_none p l c : p c = false -> drop_while p (c :: l) = c :: l.
Proof. intros H. cbn. rewrite H. reflexivity. Qed.

Lemma starts_with_app pre l : starts_with pre (pre ++ l)%list = true.
Proof.
  induction pre as [|c pre IH]; cbn; [reflexivity|].
  rewrite Ascii.eqb_refl. exact IH.
Qed.

Lemma starts_with_inv pre l :
  starts_with pre l = true -> exists rest, l = (pre ++ rest)%list.
Proof.
  revert l. induction pre as [|c pre IH]; intros l; cbn.
  - exists l. reflexivity.
  - destruct l as [|d l]; [discriminate|].
    intros H. apply andb_prop in H. destruct H as [Hc Hl].
    apply Ascii.eqb_eq in Hc. subst d.
    destruct (IH _ Hl) as (rest & ->). exists rest. reflexivity.
Qed.

Lemma is_dot_eq c : not_dot c = false -> c = dot.
Proof.
  unfold not_dot, is_dot. intros H. apply negb_false_iff in H.
  apply Ascii.eqb_eq. exact H.
Qed.

(** The last component, read from its end, begins with the extension. *)
Lemma extname_component path :
  extname path <> EmptyString ->
  exists before,
    component_rev path = (rev (chars (extname path)) ++ before)%list.
Proof.
  unfold extname. set (c := component_rev path).
  pose proof (take_drop_while not_dot c) as Hsplit.
  destruct (drop_while not_dot c) as [|d [|b before]] eqn:Hd; try congruence.
  destruct (String.eqb _ ".."); try congruence.
  intros _. apply drop_while_head in Hd. apply is_dot_eq in Hd. subst d.
  exists (b :: before). rewrite chars_text, rev_involutive.
  rewrite <- Hsplit at 1. rewrite <- app_assoc. reflexivity.
Qed.

Lemma extname_ends path :
  extname path <> EmptyString ->
  ends_with (extname path) (without_trailing_slashes path) = true.
Proof.
  intros H. destruct (extname_component path H) as (before & Hc).
  unfold ends_with, without_trailing_slashes.
  rewrite chars_text, rev_involutive.
  unfold component_rev in Hc.
  rewrite <- (take_drop_while not_slash (drop_while is_slash (rev (chars path)))).
  rewrite Hc, <- app_assoc. apply starts_with_app.
Qed.

End PathFacts.

(** C6, as the code has it. The extension is what [path.extname] finds, and
    that function ignores separators at the end of the path: a file name
    which, those separators set aside, does not end in [.png] makes the
    handler fail before any effect, the creation of the directory included. *)
Theorem non_png_filename_rejected
    (Position Data : Type) (world : World) (node : Code Position Data)
    (options : Options) (vfile : VFile) (args : Args) :
  parseArgs node = inr args ->
  ends_with ".png" (without_trailing_slashes (filename args)) = false ->
  exists failure, screenshot world node options vfile = ([], inl failure).
Proof.
  intros Hp Hend.
  assert (Hv : exists failure, validate args vfile = inl failure).
  { unfold validate.
    destruct (has_basename vfile); cbn [assert rbind ok throw]; [|eauto].
    destruct (String.eqb_spec (Path.extname (filename args)) ".png") as [E|E];
      cbn [assert rbind ok throw]; [|eauto].
    exfalso.
    assert (Hne : Path.extname (filename args) <> EmptyString)
      by (rewrite E; discriminate).
    apply PathFacts.extname_ends in Hne. rewrite E in Hne. congruence. }
  destruct Hv as (failure & Hv). exists failure.
  eapply screenshot_validation_failure; eassumption.
Qed.

Lemma non_png_filename_rejected_witness :
  exists failure,
    screenshot Sample.world
      (Sample.block (Sample.fields "shot.jpeg" None None None))
      Sample.options Sample.vfile
    = ([], inl failure).
Proof.
  apply (non_png_filename_rejected nat unit Sample.world
           (Sample.block (Sample.fields "shot.jpeg" None None None))
           Sample.options Sample.vfile
           {| filename := "shot.jpeg"; alt := "The <Rental> component";
              width := 1024; height := Some 0%Z; x := Some 0%Z;
              y := Some 0%Z; retina := Some false |}).
  - reflexivity.
  - reflexivity.
Defined.

(** C6, as stated, fails: [shot.png/] does not end in [.png], yet its
    extension is [.png], the checks pass and the directory is created. *)
Lemma non_png_filename_creates_directory :
  ends_with ".png" "shot.png/" = false /\
  Path.extname "shot.png/" = ".png" /\
  hd_error (trace_of (screenshot Sample.world
                        (Sample.block (Sample.fields "shot.png/" None None None))
                        Sample.options Sample.vfile))
  = Some (Mkdirp "/project/dist/assets/screenshots/chapter").
Proof.
  repeat split; vm_compute; reflexivity.
Qed.

(** ** Facts about strings *)

Module StringFacts.
Import Path.

Lemma append_nil_r s : s ++ "" = s.
Proof. induction s as [|c s IH]; cbn; [reflexivity | f_equal; exact IH]. Qed.


Lemma length_append s t : String.length (s ++ t) = (String.length s + String.length t)%nat.
Proof. induction s as [|c s IH]; cbn; [reflexivity | f_equal; exact IH]. Qed.

Lemma chars_app s t : chars (s ++ t) = (chars s ++ chars t)%list.
Proof. induction s as [|c s IH]; cbn; [reflexivity | f_equal; exact IH]. Qed.

Lemma text_app l m : text (l ++ m) = text l ++ text m.
Proof. induction l as [|c l IH]; cbn; [reflexivity | f_equal; exact IH]. Qed.

Lemma length_chars s : List.length (chars s) = String.length s.
Proof. induction s as [|c s IH]; cbn; [reflexivity | f_equal; exact IH]. Qed.

Lemma append_eq_self_l s t : t = s ++ t -> s = "".
Proof.
  intros H. apply (f_equal String.length) in H. rewrite length_append in H.
  destruct s; [reflexivity | cbn in H; lia].
Qed.

End StringFacts.

(** ** [basename] on plain names *)

Module BasenameFacts.
Import Path PathFacts StringFacts.

Lemma component_rev_plain path :
  no_slash path -> component_rev path = rev (chars path).
Proof.
  unfold no_slash, component_rev. intros H.
  assert (Hr : forallb not_slash (rev (chars path)) = true).
  { rewrite forallb_forall in *. intros c Hc. apply H. apply in_rev. exact Hc. }
  destruct (rev (chars path)) as [|c l] eqn:E; [reflexivity|].
  assert (Hc : is_slash c = false).
  { cbn in Hr. apply andb_prop in Hr. destruct Hr as [Hc _].
    unfold not_slash in Hc. apply negb_true_iff. exact Hc. }
  cbn [drop_while]. rewrite Hc. apply take_while_all. exact Hr.
Qed.

Lemma no_slash_app s t : no_slash s -> no_slash t -> no_slash (s ++ t).
Proof.
  unfold no_slash. intros Hs Ht. rewrite chars_app, forallb_app, Hs, Ht.
  reflexivity.
Qed.

(** Cutting a suffix off a plain name gives back what stands before it. *)
Lemma basename_plain name ext :
  ext <> "" -> no_slash name -> no_slash ext ->
  basename (name ++ ext) ext = name.
Proof.
  intros Hext Hname Hplain. unfold basename.
  rewrite (component_rev_plain (name ++ ext)) by (apply no_slash_app; assumption).
  rewrite length_append.
  replace (0 <? String.length ext)%nat with true
    by (symmetry; apply Nat.ltb_lt; destruct ext; [congruence | cbn; lia]).
  replace (String.length ext <=? String.length name + String.length ext)%nat
    with true by (symmetry; apply Nat.leb_le; lia).
  cbn [andb].
  destruct (String.eqb_spec ext (name ++ ext)) as [E|E].
  - symmetry. eapply append_eq_self_l. exact E.
  - rewrite chars_app, rev_app_distr, starts_with_app.
    rewrite length_app, !length_rev, !length_chars.
    assert (Hpos : (0 < String.length name)%nat).
    { destruct name; [cbn in E; congruence | cbn; lia]. }
    replace (String.length ext <? String.length ext + String.length name)%nat
      with true by (symmetry; apply Nat.ltb_lt; lia).
    cbn [andb]. rewrite skipn_app, length_rev, length_chars.
    rewrite Nat.sub_diag. rewrite skipn_all2 by (rewrite length_rev, length_chars; lia).
    cbn [skipn app]. rewrite rev_involutive. apply text_chars.
Qed.

End BasenameFacts.

(** ** Attribute values *)

Module AttrFacts.
Import Path StringFacts.

Lemma escape_callback_throws :
  escape_callback escape_pattern
  = throw (JsError ("Unknown character: `" ++ escape_pattern ++ "`")).
Proof. reflexivity. Qed.

(** The pattern is the sequence of the three characters, so a match is never
    one of the characters the callback knows. *)
Lemma replace_all_escape s :
  JS.replace_all escape_pattern escape_callback s
  = if JS.includes escape_pattern s
    then throw (JsError ("Unknown character: `" ++ escape_pattern ++ "`"))
    else ok s.
Proof.
  unfold JS.replace_all.
  induction s as [|c s IH]; [reflexivity|].
  cbn [JS.replace_from JS.includes].
  change (0 <? String.length escape_pattern)%nat with true. cbn [andb].
  destruct (String.prefix escape_pattern (String c s)); cbn [orb].
  - rewrite escape_callback_throws. reflexivity.
  - rewrite IH. destruct (JS.includes escape_pattern s); reflexivity.
Qed.

Lemma escape_char_plain c : plain_char c = true -> JS.escape_char c = JS.char c.
Proof.
  unfold plain_char, JS.escape_char. intros H.
  apply andb_prop in H. destruct H as [H _].
  apply andb_prop in H. destruct H as [H Hlow].
  apply andb_prop in H. destruct H as [Hq Hb].
  apply negb_true_iff in Hq, Hb, Hlow.
  rewrite Hq, Hb.
  assert (Hn : forall k, (k <? 32)%N = true -> (N_of_ascii c =? k)%N = false).
  { intros k Hk. apply N.eqb_neq. intros E. rewrite E in Hlow. congruence. }
  rewrite !Hn by reflexivity. rewrite Hlow. reflexivity.
Qed.

Lemma escape_plain s : forallb plain_char (chars s) = true -> JS.escape s = s.
Proof.
  induction s as [|c s IH]; cbn; [reflexivity|].
  intros H. apply andb_prop in H. destruct H as [Hc Hs].
  rewrite escape_char_plain, IH by assumption. reflexivity.
Qed.

Lemma includes_plain s :
  forallb plain_char (chars s) = true -> JS.includes escape_pattern s = false.
Proof.
  induction s as [|c s IH]; [reflexivity|].
  cbn [chars list_ascii_of_string forallb]. intros H.
  apply andb_prop in H. destruct H as [Hc Hs].
  cbn [JS.includes]. rewrite (IH Hs), orb_false_r.
  unfold plain_char in Hc. apply andb_prop in Hc. destruct Hc as [_ Hc].
  apply negb_true_iff, Ascii.eqb_neq in Hc.
  unfold escape_pattern. cbn [String.prefix].
  destruct (ascii_dec "<" c); [congruence | reflexivity].
Qed.

Lemma uint_plain d : forallb plain_char (chars (NilEmpty.string_of_uint d)) = true.
Proof. induction d; cbn; try reflexivity; exact IHd. Qed.

Lemma number_plain n : forallb plain_char (chars (JS.number_to_string n)) = true.
Proof.
  unfold JS.number_to_string, NilZero.string_of_int, NilZero.string_of_uint.
  destruct (Z.to_int n) as [d|d].
  - destruct d; try reflexivity; apply uint_plain.
  - cbn [chars list_ascii_of_string forallb].
    change (plain_char "-") with true. cbn [andb].
    destruct d; try reflexivity; apply uint_plain.
Qed.

Lemma attr_number n : attr (JS.Number n) = ok (JS.quote (JS.number_to_string n)).
Proof.
  unfold attr. cbn [JS.to_String]. rewrite replace_all_escape.
  rewrite includes_plain by apply number_plain.
  cbn [rbind ok JS.stringify JS.template]. unfold JS.quote.
  rewrite escape_plain by apply number_plain. reflexivity.
Qed.

End AttrFacts.

(** C1, what the code does. The pattern of [attr] is the three characters in
    a row, not a class of three characters: [attr] never replaces anything.
    It throws when the text holds that very sequence, and otherwise returns
    the text as a JSON string literal, angle brackets included. *)
Theorem attr_replaces_nothing (s : string) :
  attr (JS.Str s)
  = if JS.includes escape_pattern s
    then throw (JsError ("Unknown character: `" ++ escape_pattern ++ "`"))
    else ok (JS.quote s).
Proof.
  unfold attr. cbn [JS.to_String]. rewrite AttrFacts.replace_all_escape.
  destruct (JS.includes escape_pattern s); reflexivity.
Qed.

Example attr_of_component_name :
  attr (JS.Str "The <Rental> component") = ok (JS.quote "The <Rental> component")
  /\ JS.quote "The <Rental> component"
     = String JS.dquote ("The <Rental> component" ++ JS.char JS.dquote).
Proof. split; reflexivity. Qed.

Example img_of_component_name :
  outcome (screenshot Sample.world
             (Sample.block (Sample.fields "pass.png" (Some 512%Z) None (Some true)))
             Sample.options Sample.vfile)
  = inr (HTML ("<img src=" ++ JS.quote "/screenshots/chapter/pass@2x.png"
               ++ " alt=" ++ JS.quote "The <Rental> component"
               ++ " width=" ++ JS.quote "1024"
               ++ " height=" ++ JS.quote "500" ++ ">")
           (Some 7%nat) None).
Proof. vm_compute. reflexivity. Qed.

Example attr_of_quoted_word :
  attr (JS.Str (JS.quote "hi"))
  = ok (String JS.dquote
          (String JS.backslash (String JS.dquote
             ("hi" ++ String JS.backslash (String JS.dquote (JS.char JS.dquote)))))).
Proof. reflexivity. Qed.

(** ** Retina screenshots *)

Lemma img_tag_success src alt w h tag :
  img_tag src alt w h = inr tag ->
  exists s a,
    attr (JS.Str src) = inr s /\
    attr (JS.Str alt) = inr a /\
    tag = "<img src=" ++ s ++ " alt=" ++ a
          ++ " width=" ++ JS.quote (JS.number_to_string w)
          ++ " height=" ++ JS.quote (JS.number_to_string h) ++ ">".
Proof.
  unfold img_tag.
  destruct (attr (JS.Str src)) as [e|s]; cbn [rbind]; [discriminate|].
  destruct (attr (JS.Str alt)) as [e|a]; cbn [rbind]; [discriminate|].
  rewrite !AttrFacts.attr_number. cbn [rbind ok].
  intros [= <-]. exists s, a. repeat split; reflexivity.
Qed.

(** C5, as the code has it. For a retina screenshot whose file name is
    [<base>.png] with [<base>] a plain name (no [/] in it), the file is named
    [<base>@2x.png], the viewport asks for a device scale factor of 2 (and of
    1 when retina is not set), and the [width] and [height] attributes of the
    emitted [img] element are the halves, rounded down, of the pixel width
    and height read back from the image. *)
Theorem retina_screenshot
    (Position Data : Type) (world : World) (node : Code Position Data)
    (options : Options) (vfile : VFile) (args : Args) (base : string)
    (n : Node Position Data) :
  parseArgs node = inr args ->
  filename args = base ++ ".png" ->
  no_slash base ->
  retina args = Some true ->
  outcome (screenshot world node options vfile) = inr n ->
  let name := base ++ "@2x.png" in
  let path := Path.join [directory options vfile; name] in
  output_filename args = name /\
  member "deviceScaleFactor" (viewport args) = Some (JS.Number 2) /\
  (forall args', JS.truthy (retina args') = false ->
     member "deviceScaleFactor" (viewport args') = Some (JS.Number 1)) /\
  exists w h src alt_text,
    image_size world path = Some (w, h) /\
    attr (JS.Str ("/screenshots/" ++ namespace_of vfile ++ "/" ++ name)) = inr src /\
    attr (JS.Str (alt args)) = inr alt_text /\
    n = HTML ("<img src=" ++ src ++ " alt=" ++ alt_text
              ++ " width=" ++ JS.quote (JS.number_to_string (w / 2))
              ++ " height=" ++ JS.quote (JS.number_to_string (h / 2)) ++ ">")
          (position node) (data node).
Proof.
  intros Hp Hf Hbase Hr Hrun name path.
  assert (Hname : output_filename args = name).
  { unfold output_filename. rewrite Hr, Hf. cbn [JS.truthy].
    rewrite BasenameFacts.basename_plain; [reflexivity | discriminate | exact Hbase | reflexivity]. }
  split; [exact Hname|].
  split; [unfold viewport; rewrite Hr; reflexivity|].
  split; [intros args' H; unfold viewport; rewrite H; reflexivity|].
  apply screenshot_success in Hrun.
  destruct Hrun as (args0 & script & Hp0 & _ & _ & _ & Hn).
  rewrite Hp in Hp0. injection Hp0 as <-.
  rewrite Hr in Hn. cbn [JS.truthy] in Hn.
  destruct Hn as ([w h] & tag & Hsize & Htag & -> & _).
  rewrite Hname in Hsize, Htag.
  apply img_tag_success in Htag. destruct Htag as (s & a & Hs & Ha & ->).
  exists w, h, s, a. repeat split; assumption || reflexivity.
Qed.

Lemma retina_screenshot_witness :
  output_filename
    {| filename := "pass.png"; alt := "The <Rental> component"; width := 1024;
       height := Some 512%Z; x := Some 0%Z; y := Some 0%Z; retina := Some true |}
  = "pass@2x.png".
Proof.
  eapply (fun n H =>
            proj1 (retina_screenshot nat unit Sample.world
                     (Sample.block (Sample.fields "pass.png" (Some 512%Z) None (Some true)))
                     Sample.options Sample.vfile _ "pass" n
                     eq_refl eq_refl eq_refl eq_refl H)).
  vm_compute. reflexivity.
Defined.

(** C5, as stated, fails when [<base>] names a directory too: for
    [a/b.png] the checks pass and the run succeeds, but the file is
    [b@2x.png], not [a/b@2x.png]. *)
Lemma retina_filename_loses_directory :
  let args := {| filename := "a/b.png"; alt := "The <Rental> component";
                 width := 1024; height := Some 0%Z; x := Some 0%Z;
                 y := Some 0%Z; retina := Some true |} in
  let run := screenshot Sample.world
               (Sample.block (Sample.fields "a/b.png" None None (Some true)))
               Sample.options Sample.vfile in
  parseArgs (Sample.block (Sample.fields "a/b.png" None None (Some true))) = inr args /\
  output_filename args = "b@2x.png" /\
  output_filename args <> "a/b" ++ "@2x.png" /\
  nth_error (trace_of run) 3
  = Some (ImageSize "/project/dist/assets/screenshots/chapter/b@2x.png") /\
  exists tag, outcome run = inr (HTML tag (Some 7) None).
Proof.
  cbv zeta. split; [reflexivity|]. split; [reflexivity|].
  split; [vm_compute; discriminate|]. split; [vm_compute; reflexivity|].
  eexists. vm_compute. reflexivity.
Qed.

(** ** The compiled program *)

Module CompileFacts.
Import StringFacts.

Lemma split_spaces_from_cons in_run s :
  exists h t, JS.split_spaces_from in_run s = h :: t.
Proof.
  revert in_run. induction s as [|c s IH]; intros in_run; cbn.
  - eauto.
  - destruct (JS.is_space c).
    + destruct in_run; [apply IH | eauto].
    + destruct (IH false) as (h & t & ->). eauto.
Qed.

Lemma nth_error_firstn_2 (l : list string) k :
  (k < 2)%nat -> nth_error (firstn 2 l) k = nth_error l k.
Proof.
  intros Hk. destruct l as [|a [|b l]]; [reflexivity | |].
  - destruct k as [|[|k]]; reflexivity.
  - destruct k as [|[|k]]; [reflexivity | reflexivity | lia].
Qed.

(** A line that is not empty adds the statement it stands for, or throws. *)
Lemma push_step_step_of script line :
  line <> "" ->
  push_step script line
  = match step_of line with
    | Some statement => ok (script ++ [statement])%list
    | None => throw (JsError ("Unknown action: " ++ first_token line))
    end.
Proof.
  intros Hline. unfold push_step, step_of, first_token, second_token.
  destruct (String.eqb_spec line ""); [contradiction|].
  unfold JS.split_spaces_limit. rewrite !nth_error_firstn_2 by lia.
  unfold JS.split_spaces.
  destruct (split_spaces_from_cons false line) as (h & t & ->).
  cbn [nth_error hd is_action JS.template].
  destruct (String.eqb h "visit"); [reflexivity|].
  destruct (String.eqb h "wait"); reflexivity.
Qed.

Lemma push_step_empty script : push_step script "" = ok script.
Proof. reflexivity. Qed.

(** The loop, read as a whole: the statements of the lines that are not
    empty, in order, behind what the script already held; or the exception of
    the first line that stands for no statement. *)
Lemma push_steps_all script lines :
  (forall line, In line lines -> line <> "" -> step_of line <> None) ->
  exists statements,
    push_steps script lines = ok (script ++ statements)%list /\
    map Some statements
    = map step_of (filter (fun line => negb (String.eqb line "")) lines).
Proof.
  revert script. induction lines as [|line lines IH]; intros script Hall.
  - exists []. rewrite app_nil_r. split; reflexivity.
  - cbn [push_steps filter].
    destruct (String.eqb_spec line "") as [->|Hne]; cbn [negb].
    + rewrite push_step_empty. cbn [rbind ok].
      apply IH. intros l Hl. apply Hall. right. exact Hl.
    + rewrite push_step_step_of by exact Hne.
      destruct (step_of line) as [statement|] eqn:Hs;
        [|exfalso; apply (Hall line); [left; reflexivity | exact Hne | exact Hs]].
      cbn [rbind ok].
      destruct (IH (script ++ [statement])%list) as (statements & Hrun & Hmap).
      { intros l Hl. apply Hall. right. exact Hl. }
      exists (statement :: statements). split.
      * rewrite Hrun, <- app_assoc. reflexivity.
      * cbn [map]. rewrite Hs, Hmap. reflexivity.
Qed.

Lemma push_steps_unknown script lines :
  (exists line, In line lines /\ line <> "" /\ step_of line = None) ->
  exists action, push_steps script lines = throw (JsError ("Unknown action: " ++ action)).
Proof.
  revert script. induction lines as [|line lines IH]; intros script (bad & Hin & Hne & Hbad).
  - destruct Hin.
  - cbn [push_steps].
    destruct (String.eqb_spec line "") as [->|Hline].
    + rewrite push_step_empty. cbn [rbind ok]. apply IH.
      destruct Hin as [<-|Hin]; [congruence|]. eauto.
    + rewrite push_step_step_of by exact Hline.
      destruct (step_of line) as [statement|] eqn:Hs.
      * cbn [rbind ok]. apply IH.
        destruct Hin as [<-|Hin]; [congruence|]. eauto.
      * cbn [rbind throw]. eauto.
Qed.

Lemma in_nonempty_lines body line :
  In line (nonempty_lines body) <->
  In line (JS.split JS.newline body) /\ line <> "".
Proof.
  unfold nonempty_lines. rewrite filter_In.
  split; intros [H1 H2]; split; try exact H1.
  - apply negb_true_iff, String.eqb_neq in H2. exact H2.
  - apply negb_true_iff, String.eqb_neq. exact H2.
Qed.

Lemma join_cons sep p q rest :
  JS.join sep (p :: q :: rest) = p ++ sep ++ JS.join sep (q :: rest).
Proof. reflexivity. Qed.

Lemma join_header sep p statements last :
  JS.join sep (p :: statements ++ [last])
  = p ++ sep ++ JS.join sep (statements ++ [last]).
Proof. destruct statements; reflexivity. Qed.

Lemma goto_line_text arg :
  goto_line arg
  = "  await page.goto(" ++ argument_text arg ++ ", { waitUtil: 'networkidle0' });".
Proof. destruct arg; reflexivity. Qed.

Lemma wait_line_text arg :
  wait_line arg = "  await page.waitForSelector(" ++ argument_text arg ++ ");".
Proof. destruct arg; reflexivity. Qed.

(** What [step_of] gives, spelt out. *)
Lemma step_of_text line statement :
  step_of line = Some statement ->
  (first_token line = "visit" /\
   statement = "  await page.goto(" ++ argument_text (second_token line)
               ++ ", { waitUtil: 'networkidle0' });")
  \/
  (first_token line = "wait" /\
   statement = "  await page.waitForSelector(" ++ argument_text (second_token line)
               ++ ");").
Proof.
  unfold step_of.
  destruct (String.eqb_spec (first_token line) "visit") as [Hv|_].
  - intros [= <-]. left. split; [exact Hv | apply goto_line_text].
  - destruct (String.eqb_spec (first_token line) "wait") as [Hw|_]; [|discriminate].
    intros [= <-]. right. split; [exact Hw | apply wait_line_text].
Qed.

Lemma steps_text lines statements :
  map Some statements = map step_of lines ->
  Forall2
    (fun line statement =>
       (first_token line = "visit" /\
        statement = "  await page.goto(" ++ argument_text (second_token line)
                    ++ ", { waitUtil: 'networkidle0' });")
       \/
       (first_token line = "wait" /\
        statement = "  await page.waitForSelector(" ++ argument_text (second_token line)
                    ++ ");"))
    lines statements.
Proof.
  revert statements. induction lines as [|line lines IH]; intros [|statement statements];
    cbn [map]; try discriminate; intros H.
  - constructor.
  - injection H as Hs Hrest. constructor; [|apply IH; exact Hrest].
    apply step_of_text. symmetry. exact Hs.
Qed.

End CompileFacts.

(** C3. When every line of the body that is not empty starts with [visit] or
    [wait], the compiled program holds, between its header and its footer,
    exactly the statements of those lines, one each and in their order: for a
    [visit] line the call of [page.goto] on the argument of the line, for a
    [wait] line the call of [page.waitForSelector] on it. When some non-empty
    line starts with anything else, [compile] throws [Unknown action], and the
    handler fails without having started any process. *)
Theorem compile_steps (body path : string) (args : Args) :
  ((forall line, In line (nonempty_lines body) -> step_of line <> None) ->
   exists statements,
     compile body path args
     = ok (JS.join (JS.char JS.newline)
             (header args :: statements ++ [footer path args])) /\
     map Some statements = map step_of (nonempty_lines body) /\
     List.length statements = List.length (nonempty_lines body) /\
     Forall2
       (fun line statement =>
          (first_token line = "visit" /\
           statement = "  await page.goto(" ++ argument_text (second_token line)
                       ++ ", { waitUtil: 'networkidle0' });")
          \/
          (first_token line = "wait" /\
           statement = "  await page.waitForSelector("
                       ++ argument_text (second_token line) ++ ");"))
       (nonempty_lines body) statements)
  /\
  ((exists line, In line (nonempty_lines body) /\ step_of line = None) ->
   (exists action,
      compile body path args = throw (JsError ("Unknown action: " ++ action))) /\
   forall (Position Data : Type) (world : World) (node : Code Position Data)
          (options : Options) (vfile : VFile),
     value node = body ->
     (exists failure, outcome (screenshot world node options vfile) = inl failure) /\
     existsb is_exec (trace_of (screenshot world node options vfile)) = false).
Proof.
  split.
  - intros Hall.
    destruct (CompileFacts.push_steps_all [header args] (JS.split JS.newline body))
      as (statements & Hrun & Hmap).
    { intros line Hin Hne. apply Hall. apply CompileFacts.in_nonempty_lines. auto. }
    exists statements. unfold compile. rewrite Hrun. cbn [rbind ok app].
    split; [reflexivity|]. split; [exact Hmap|].
    split; [|apply CompileFacts.steps_text; exact Hmap].
    apply (f_equal (@List.length _)) in Hmap. rewrite !length_map in Hmap. exact Hmap.
  - intros (bad & Hin & Hbad).
    apply CompileFacts.in_nonempty_lines in Hin. destruct Hin as [Hin Hne].
    assert (Hthrow : forall p a, exists action,
               compile body p a = throw (JsError ("Unknown action: " ++ action))).
    { intros p a.
      destruct (CompileFacts.push_steps_unknown [header a] (JS.split JS.newline body))
        as (action & Hrun); [eauto|].
      exists action. unfold compile. rewrite Hrun. reflexivity. }
    split; [apply Hthrow|].
    intros Position Data world node options vfile Hbody.
    destruct (parseArgs node) as [e|args'] eqn:Hp.
    { rewrite (screenshot_parse_failure _ _ _ _ _ _ _ Hp). cbn. eauto. }
    destruct (validate args' vfile) as [e|[]] eqn:Hv.
    { rewrite (screenshot_validation_failure _ _ _ _ _ _ _ _ Hp Hv). cbn. eauto. }
    destruct (Hthrow (Path.join [directory options vfile; output_filename args']) args')
      as (action & Hc).
    rewrite <- Hbody in Hc.
    destruct (screenshot_compile_failure _ _ world _ _ _ _ _ Hp Hv Hc) as (Htrace & Hfail).
    rewrite Htrace. split; [exact Hfail | reflexivity].
Qed.

Lemma compile_steps_witness :
  (exists statements,
     compile Sample.body "shot.png" Sample.args
     = ok (JS.join (JS.char JS.newline)
             (header Sample.args :: statements ++ [footer "shot.png" Sample.args])) /\
     statements
     = ["  await page.goto(" ++ JS.quote "http://localhost:4200/"
        ++ ", { waitUtil: 'networkidle0' });";
        "  await page.waitForSelector(" ++ JS.quote ".rentals" ++ ");"])
  /\
  (exists action,
     compile "visit http://x
click #ok" "shot.png" Sample.args
     = throw (JsError ("Unknown action: " ++ action))).
Proof.
  split.
  - destruct (proj1 (compile_steps Sample.body "shot.png" Sample.args))
      as (statements & Hc & _ & _ & Hall).
    { intros line Hin. vm_compute in Hin.
      destruct Hin as [<-|[<-|[]]]; vm_compute; discriminate. }
    exists statements. split; [exact Hc|].
    change (nonempty_lines Sample.body)
      with ["visit http://localhost:4200/";
            "wait  .rentals li:nth-of-type(3) article.rental"] in Hall.
    inversion Hall as [|l1 s1 ls ss H1 Hrest]; subst.
    inversion Hrest as [|l2 s2 ls' ss' H2 Hnil]; subst.
    inversion Hnil; subst.
    destruct H1 as [[_ ->]|[Hw _]]; [|discriminate Hw].
    destruct H2 as [[Hv _]|[_ ->]]; [discriminate Hv|].
    reflexivity.
  - apply (proj2 (compile_steps _ "shot.png" Sample.args)).
    exists "click #ok". split; [vm_compute; auto | reflexivity].
Defined.

Example two_steps_from_three_lines :
  push_steps [] (JS.split JS.newline "visit http://x
wait #ok
")
  = ok ["  await page.goto(" ++ JS.quote "http://x" ++ ", { waitUtil: 'networkidle0' });";
        "  await page.waitForSelector(" ++ JS.quote "#ok" ++ ");"].
Proof. reflexivity. Qed.

(** ** Tokens of a line *)

Module TokenFacts.
Import Path StringFacts CompileFacts.

Lemma split_word in_run word rest h t :
  no_space word -> word <> "" ->
  JS.split_spaces_from false rest = h :: t ->
  JS.split_spaces_from in_run (word ++ rest) = (word ++ h) :: t.
Proof.
  intros Hword Hne Hrest. revert in_run Hword Hne.
  induction word as [|c word IH]; intros in_run Hword Hne; [congruence|].
  unfold no_space in Hword. cbn in Hword.
  apply andb_prop in Hword. destruct Hword as [Hc Hword].
  apply negb_true_iff in Hc.
  cbn [append JS.split_spaces_from]. rewrite Hc.
  destruct word as [|d word].
  - cbn [append]. rewrite Hrest. reflexivity.
  - rewrite (IH false Hword) by discriminate. reflexivity.
Qed.

Lemma split_run_inside run rest :
  all_space run ->
  JS.split_spaces_from true (run ++ rest) = JS.split_spaces_from true rest.
Proof.
  induction run as [|c run IH]; intros Hrun; [reflexivity|].
  unfold all_space in Hrun. cbn in Hrun.
  apply andb_prop in Hrun. destruct Hrun as [Hc Hrun].
  cbn [append JS.split_spaces_from]. rewrite Hc. apply IH. exact Hrun.
Qed.

Lemma split_run run rest :
  all_space run -> run <> "" ->
  JS.split_spaces_from false (run ++ rest) = "" :: JS.split_spaces_from true rest.
Proof.
  intros Hrun Hne. destruct run as [|c run]; [congruence|].
  unfold all_space in Hrun. cbn in Hrun.
  apply andb_prop in Hrun. destruct Hrun as [Hc Hrun].
  cbn [append JS.split_spaces_from]. rewrite Hc.
  rewrite split_run_inside by exact Hrun. reflexivity.
Qed.

(** A verb, an argument and whatever follows: the first two pieces. *)
Lemma split_verb_argument verb sep1 arg sep2 rest :
  no_space verb -> verb <> "" ->
  no_space arg -> arg <> "" ->
  all_space sep1 -> sep1 <> "" ->
  all_space sep2 -> sep2 <> "" ->
  JS.split_spaces_limit 2 (verb ++ sep1 ++ arg ++ sep2 ++ rest) = [verb; arg].
Proof.
  intros Hverb Hv Harg Ha Hs1 Hn1 Hs2 Hn2.
  unfold JS.split_spaces_limit, JS.split_spaces.
  destruct (split_spaces_from_cons true rest) as (h & t & Hrest).
  assert (H2 : JS.split_spaces_from false (sep2 ++ rest) = "" :: h :: t).
  { rewrite split_run by assumption. rewrite Hrest. reflexivity. }
  assert (H1 : JS.split_spaces_from false (sep1 ++ arg ++ sep2 ++ rest)
               = "" :: (arg ++ "") :: h :: t).
  { rewrite split_run by assumption.
    rewrite (split_word true arg _ _ _ Harg Ha H2). reflexivity. }
  rewrite (split_word false verb _ _ _ Hverb Hv H1).
  rewrite !append_nil_r. reflexivity.
Qed.

End TokenFacts.

(** C10. On a [visit] or [wait] line the argument is the one piece that
    follows the verb and its white space: the statement emitted is the call of
    [page.goto] or of [page.waitForSelector] on the JSON string of that piece.
    White space after the piece, and everything behind it, has no part in the
    statement, and the line is accepted all the same. *)
Theorem only_first_argument_token_is_used
    (script : list string) (sep1 arg sep2 rest : string) :
  no_space arg -> arg <> "" ->
  all_space sep1 -> sep1 <> "" ->
  all_space sep2 -> sep2 <> "" ->
  push_step script ("visit" ++ sep1 ++ arg ++ sep2 ++ rest)
  = ok (script ++ [("  await page.goto(" ++ JS.quote arg
                    ++ ", { waitUtil: 'networkidle0' });")%string])%list
  /\
  push_step script ("wait" ++ sep1 ++ arg ++ sep2 ++ rest)
  = ok (script
        ++ [("  await page.waitForSelector(" ++ JS.quote arg ++ ");")%string])%list.
Proof.
  intros Harg Ha Hs1 Hn1 Hs2 Hn2. split.
  - unfold push_step.
    rewrite (TokenFacts.split_verb_argument "visit") by (assumption || reflexivity || discriminate).
    cbn [String.eqb Ascii.eqb Bool.eqb nth_error is_action].
    rewrite CompileFacts.goto_line_text. reflexivity.
  - unfold push_step.
    rewrite (TokenFacts.split_verb_argument "wait") by (assumption || reflexivity || discriminate).
    cbn [String.eqb Ascii.eqb Bool.eqb nth_error is_action].
    rewrite CompileFacts.wait_line_text. reflexivity.
Qed.

Lemma only_first_argument_token_is_used_witness :
  push_step [] "visit http://localhost:4200/ and then some"
  = ok ["  await page.goto(" ++ JS.quote "http://localhost:4200/"
        ++ ", { waitUtil: 'networkidle0' });"]
  /\
  push_step [] "wait  .rentals li:nth-of-type(3) article.rental"
  = ok ["  await page.waitForSelector(" ++ JS.quote ".rentals" ++ ");"].
Proof.
  split.
  - apply (proj1 (only_first_argument_token_is_used
                    [] " " "http://localhost:4200/" " " "and then some"
                    eq_refl ltac:(discriminate) eq_refl ltac:(discriminate)
                    eq_refl ltac:(discriminate))).
  - apply (proj2 (only_first_argument_token_is_used
                    [] "  " ".rentals" " " "li:nth-of-type(3) article.rental"
                    eq_refl ltac:(discriminate) eq_refl ltac:(discriminate)
                    eq_refl ltac:(discriminate))).
Defined.

(** C2, what the code does. The statement emitted for a [visit] line passes
    [page.goto] an option spelt [waitUtil]; the name [waitUntil] does not
    occur in it. *)
Theorem visit_step_option_is_misspelt :
  push_step [] "visit http://localhost:4200/"
  = ok ["  await page.goto(" ++ JS.quote "http://localhost:4200/"
        ++ ", { waitUtil: 'networkidle0' });"]
  /\
  JS.includes "waitUntil" (goto_line (Some "http://localhost:4200/")) = false
  /\
  forall arg, exists call,
    goto_line arg = call ++ ", { waitUtil: 'networkidle0' });".
Proof.
  split; [reflexivity|]. split; [reflexivity|].
  intros arg. exists ("  await page.goto(" ++ JS.template (js (string_or_undefined arg))).
  unfold goto_line. reflexivity.
Qed.

(** ** The viewport *)

(** C8, as the code has it. The program begins with the header, whose
    [setViewport] call is given the viewport object; its width is the given
    width, its device scale factor is 2 for retina and 1 otherwise, and its
    height is the given height unless that is 0 (or absent), when it is 100. *)
Theorem viewport_of_compiled_program
    (steps path : string) (args : Args) (script : string) :
  compile steps path args = inr script ->
  (exists rest, script = header args ++ rest) /\
  (exists preamble,
     header args = preamble ++ "  await page.setViewport("
                   ++ JS.template (js (viewport args)) ++ ");" ++ JS.char JS.newline) /\
  member "width" (viewport args) = Some (JS.Number (width args)) /\
  member "height" (viewport args)
  = Some (JS.Number (match height args with
                     | Some h => if (h =? 0)%Z then 100 else h
                     | None => 100
                     end)) /\
  member "deviceScaleFactor" (viewport args)
  = Some (JS.Number (if JS.truthy (retina args) then 2 else 1)).
Proof.
  intros Hc. split; [|split; [|repeat split]].
  - unfold compile in Hc.
    destruct (push_steps [header args] (JS.split JS.newline steps))
      as [e|lines] eqn:Hrun; cbn [rbind] in Hc; [discriminate|].
    injection Hc as <-.
    assert (Hpre : exists more, lines = header args :: more).
    { clear - Hrun. revert Hrun. generalize (JS.split JS.newline steps).
      assert (G : forall l acc, push_steps (header args :: acc) l = inr lines ->
                                exists more, lines = header args :: more).
      { induction l as [|step l IH]; intros acc.
        - cbn. intros [= <-]. eauto.
        - cbn [push_steps]. unfold push_step.
          destruct (String.eqb step ""); cbn [rbind ok]; [apply IH|].
          destruct (is_action "visit" _); cbn [rbind ok]; [apply (IH (acc ++ [_])%list)|].
          destruct (is_action "wait" _); cbn [rbind ok throw]; [apply (IH (acc ++ [_])%list)|].
          discriminate. }
      intros l. apply (G l []). }
    destruct Hpre as (more & ->).
    cbn [app]. rewrite CompileFacts.join_header. eauto.
  - exists "const puppeteer = require('puppeteer');

async function main() {
  let browser = await puppeteer.launch();
  let page = await browser.newPage();
". reflexivity.
Qed.

(** ** [normalize] and [join] *)

Module JoinFacts.
Import Path PathFacts StringFacts.

Local Abbreviation cut := (JS.split slash).














End JoinFacts.

Module NormalizeFacts.
Import Path PathFacts StringFacts JoinFacts.

Local Abbreviation cut := (JS.split slash).












End NormalizeFacts.

(** ** Where the image goes *)

Lemma validate_success args vfile :
  validate args vfile = inr tt ->
  has_basename vfile = true /\
  Path.extname (filename args) = ".png" /\
  (0 < width args)%Z /\
  negb (is_zero (height args)) || (is_zero (x args) && is_zero (y args)) = true.
Proof.
  unfold validate.
  destruct (has_basename vfile); cbn [assert rbind ok throw]; [|discriminate].
  destruct (String.eqb_spec (Path.extname (filename args)) ".png") as [E|E];
    cbn [assert rbind ok throw]; [|discriminate].
  destruct (Z.ltb_spec 0 (width args)); cbn [assert rbind ok throw]; [|discriminate].
  destruct (negb (is_zero (height args)) || (is_zero (x args) && is_zero (y args)));
    cbn [assert ok throw]; [auto | discriminate].
Qed.






Lemma screenshot_keeps_position_and_data_witness :
  let n : Node nat unit :=
    Image "/screenshots/chapter/shot.png" "The <Rental> component" (Some 7%nat) None in
  node_position n = Some 7%nat /\ node_data n = None.
Proof.
  intros n.
  assert (Hrun : outcome (screenshot Sample.world
                            (Sample.block (Sample.fields "shot.png" None None None))
                            Sample.options Sample.vfile) = inr n)
    by (vm_compute; reflexivity).
  exact (screenshot_keeps_position_and_data nat unit _ _ _ _ n Hrun).
Defined.

Lemma viewport_of_compiled_program_witness :
  member "height" (viewport Sample.args) = Some (JS.Number 100) /\
  member "deviceScaleFactor" (viewport Sample.args) = Some (JS.Number 1).
Proof.
  destruct (compile Sample.body "shot.png" Sample.args) as [e|script] eqn:Hc;
    [vm_compute in Hc; discriminate Hc|].
  exact (proj2 (proj2 (proj2
           (viewport_of_compiled_program Sample.body "shot.png" Sample.args script Hc)))).
Defined.

(** C8, as stated, fails in full-page mode: the given height is 0 and the
    viewport of the program is 100 high. *)
Lemma viewport_height_of_full_page :
  height Sample.args = Some 0%Z /\
  member "height" (viewport Sample.args) = Some (JS.Number 100) /\
  JS.template (js (viewport Sample.args))
  = "{" ++ JS.quote "width" ++ ":800," ++ JS.quote "height" ++ ":100,"
        ++ JS.quote "deviceScaleFactor" ++ ":1}" /\
  exists rest,
    compile Sample.body "shot.png" Sample.args
    = ok ("const puppeteer = require('puppeteer');

async function main() {
  let browser = await puppeteer.launch();
  let page = await browser.newPage();
  await page.setViewport({" ++ JS.quote "width" ++ ":800," ++ JS.quote "height" ++ ":100,"
        ++ JS.quote "deviceScaleFactor" ++ ":1});" ++ rest).
Proof.
  split; [reflexivity|]. split; [reflexivity|]. split; [reflexivity|].
  eexists. vm_compute. reflexivity.
Qed.

(** * Further properties of the directive *)

(** ** Effects of the handler *)

(** X1. The handler performs no effect exactly when the arguments do not
    parse or do not pass validation: every such failure comes before the
    directory is created, and once validation has passed the first effect is
    the creation of the directory. *)
Theorem effects_only_after_validation
    (Position Data : Type) (world : World) (node : Code Position Data)
    (options : Options) (vfile : VFile) :
  (trace_of (screenshot world node options vfile) = [] <->
   (exists failure, parseArgs node = inl failure) \/
   (exists args failure,
      parseArgs node = inr args /\ validate args vfile = inl failure))
  /\
  (forall args,
     parseArgs node = inr args -> validate args vfile = inr tt ->
     hd_error (trace_of (screenshot world node options vfile))
     = Some (Mkdirp (directory options vfile))).
Proof.
  assert (Hfirst : forall args,
             parseArgs node = inr args -> validate args vfile = inr tt ->
             hd_error (trace_of (screenshot world node options vfile))
             = Some (Mkdirp (directory options vfile))).
  { intros args Hp Hv. unfold screenshot. rewrite Hp. run_step. rewrite Hv. run_step.
    destruct (mkdirp_succeeds world _); run_step; [|reflexivity].
    destruct (compile _ _ _); run_step; [reflexivity|].
    destruct (node_succeeds world _); run_step; [|reflexivity].
    destruct (JS.truthy (retina args)); run_step; [|reflexivity].
    destruct (image_size world _); run_step; [|reflexivity].
    destruct (img_tag _ _ _ _); reflexivity. }
  split; [|exact Hfirst]. split.
  - intros Hnil.
    destruct (parseArgs node) as [e|args] eqn:Hp; [left; eauto|].
    destruct (validate args vfile) as [e|[]] eqn:Hv; [right; eauto|].
    specialize (Hfirst args eq_refl Hv). rewrite Hnil in Hfirst. discriminate.
  - intros [(failure & Hp) | (args & failure & Hp & Hv)].
    + rewrite (screenshot_parse_failure _ _ _ _ _ _ _ Hp). reflexivity.
    + rewrite (screenshot_validation_failure _ _ _ _ _ _ _ _ Hp Hv). reflexivity.
Qed.

Lemma effects_only_after_validation_witness :
  hd_error (trace_of (screenshot Sample.world
                        (Sample.block (Sample.fields "shot.png" None None None))
                        Sample.options Sample.vfile))
  = Some (Mkdirp (directory Sample.options Sample.vfile)).
Proof.
  apply (proj2 (effects_only_after_validation nat unit Sample.world
                  (Sample.block (Sample.fields "shot.png" None None None))
                  Sample.options Sample.vfile)
           {| filename := "shot.png"; alt := "The <Rental> component";
              width := 1024; height := Some 0%Z; x := Some 0%Z;
              y := Some 0%Z; retina := Some false |}
           eq_refl eq_refl).
Defined.

(** X2. The effects of a run are always a beginning of the same sequence:
    the directory is created, the compiled program is logged, that same
    program is fed to one [node] process, and the image is read back. The
    process is never started without the two effects before it, and the image
    is read only for a retina screenshot whose process succeeded. *)
Theorem trace_shape
    (Position Data : Type) (world : World) (node : Code Position Data)
    (options : Options) (vfile : VFile) :
  let run := screenshot world node options vfile in
  let dir := directory options vfile in
  trace_of run = [] \/
  trace_of run = [Mkdirp dir] \/
  exists args script,
    parseArgs node = inr args /\
    let path := Path.join [dir; output_filename args] in
    let log := ConsoleLog ("$ node -" ++ JS.char JS.newline ++ JS.trimRight script) in
    compile (value node) path args = inr script /\
    ((trace_of run = [Mkdirp dir; log; Exec "node -" script] /\
      (JS.truthy (retina args) = false \/ node_succeeds world script = false))
     \/
     (trace_of run = [Mkdirp dir; log; Exec "node -" script; ImageSize path] /\
      JS.truthy (retina args) = true /\ node_succeeds world script = true)).
Proof.
  intros run dir. subst run dir. unfold screenshot.
  destruct (parseArgs node) as [e|args] eqn:Hp; run_step; [left; reflexivity|].
  destruct (validate args vfile) as [e|[]]; run_step; [left; reflexivity|].
  destruct (mkdirp_succeeds world _); run_step; [|right; left; reflexivity].
  destruct (compile _ _ _) as [e|script] eqn:Hc; run_step; [right; left; reflexivity|].
  right. right. exists args, script. split; [reflexivity|]. split; [exact Hc|].
  destruct (node_succeeds world script); run_step; [|left; split; [reflexivity | right; reflexivity]].
  destruct (JS.truthy (retina args)); run_step; [|left; split; [reflexivity | left; reflexivity]].
  right.
  destruct (image_size world _); run_step; [|repeat split; reflexivity].
  destruct (img_tag _ _ _ _); repeat split; reflexivity.
Qed.

(** ** Lines of the script *)

Lemma push_steps_app script lines more :
  push_steps script (lines ++ more)
  = rbind (push_steps script lines) (fun script' => push_steps script' more).
Proof.
  revert script. induction lines as [|line lines IH]; intros script; [reflexivity|].
  cbn [app push_steps]. destruct (push_step script line); cbn [rbind]; [reflexivity|].
  apply IH.
Qed.

(** X3. The exception of [compile] names the first line that stands for no
    statement: when the lines before it are empty or valid, the message is
    [Unknown action: ] followed by the first piece of that line, whatever
    comes after it. *)
Theorem first_unknown_action_is_reported
    (body path : string) (args : Args) (before after : list string) (bad : string) :
  JS.split JS.newline body = (before ++ bad :: after)%list ->
  (forall line, In line before -> line = "" \/ step_of line <> None) ->
  bad <> "" ->
  step_of bad = None ->
  compile body path args = throw (JsError ("Unknown action: " ++ first_token bad)).
Proof.
  intros Hsplit Hbefore Hne Hbad. unfold compile. rewrite Hsplit, push_steps_app.
  destruct (CompileFacts.push_steps_all [header args] before) as (statements & -> & _).
  { intros line Hin Hline. destruct (Hbefore line Hin); [contradiction | assumption]. }
  cbn [rbind ok push_steps].
  rewrite CompileFacts.push_step_step_of by exact Hne. rewrite Hbad. reflexivity.
Qed.

Lemma first_unknown_action_is_reported_witness :
  compile "visit http://x
click #ok
hover #menu" "shot.png" Sample.args
  = throw (JsError "Unknown action: click").
Proof.
  apply (first_unknown_action_is_reported _ "shot.png" Sample.args
           ["visit http://x"] ["hover #menu"] "click #ok").
  - reflexivity.
  - intros line [<-|[]]. right. discriminate.
  - discriminate.
  - reflexivity.
Defined.

(** X4. A line that begins with white space, a line of white space alone
    included, is not skipped: its first piece is empty, the loop body throws
    [Unknown action: ] with an empty name, and a block holding such a line
    does not compile. *)
Theorem indented_line_is_rejected
    (script : list string) (c : ascii) (rest body path : string) (args : Args) :
  JS.is_space c = true ->
  push_step script (String c rest) = throw (JsError "Unknown action: ")
  /\
  (In (String c rest) (JS.split JS.newline body) ->
   exists action,
     compile body path args = throw (JsError ("Unknown action: " ++ action))).
Proof.
  intros Hc.
  assert (Hstep : step_of (String c rest) = None).
  { unfold step_of, first_token, JS.split_spaces. cbn [JS.split_spaces_from].
    rewrite Hc. reflexivity. }
  split.
  - rewrite CompileFacts.push_step_step_of by discriminate. rewrite Hstep.
    unfold first_token, JS.split_spaces. cbn [JS.split_spaces_from]. rewrite Hc.
    reflexivity.
  - intros Hin.
    destruct (CompileFacts.push_steps_unknown [header args] (JS.split JS.newline body))
      as (action & Hrun).
    { exists (String c rest). split; [exact Hin|]. split; [discriminate | exact Hstep]. }
    exists action. unfold compile. rewrite Hrun. reflexivity.
Qed.

Lemma indented_line_is_rejected_witness :
  push_step [] "  visit http://x" = throw (JsError "Unknown action: ")
  /\
  exists action,
    compile "visit http://x
  wait #ok" "shot.png" Sample.args
    = throw (JsError ("Unknown action: " ++ action)).
Proof.
  destruct (indented_line_is_rejected [] " " " visit http://x"
              "visit http://x
  wait #ok" "shot.png" Sample.args eq_refl) as [Hstep _].
  destruct (indented_line_is_rejected [] " " " wait #ok"
              "visit http://x
  wait #ok" "shot.png" Sample.args eq_refl) as [_ Hbody].
  split; [exact Hstep|]. apply Hbody. vm_compute. auto.
Defined.

(** X5. A verb without an argument is accepted. Alone on its line it gives a
    call with the text [undefined] in the place of the argument; followed by
    white space only, a call with the empty string. *)
Theorem verb_without_argument (script : list string) (run : string) :
  all_space run ->
  let arg := if String.eqb run "" then None else Some "" in
  push_step script ("visit" ++ run) = ok (script ++ [goto_line arg])%list /\
  push_step script ("wait" ++ run) = ok (script ++ [wait_line arg])%list /\
  goto_line None = "  await page.goto(undefined, { waitUtil: 'networkidle0' });" /\
  wait_line None = "  await page.waitForSelector(undefined);".
Proof.
  intros Hrun arg. subst arg.
  destruct (String.eqb_spec run "") as [->|Hne].
  - repeat split; reflexivity.
  - assert (Hsplit : JS.split_spaces_from false run = [""; ""]).
    { rewrite <- (StringFacts.append_nil_r run) at 1.
      rewrite TokenFacts.split_run by assumption. reflexivity. }
    assert (Hparts : forall verb, no_space verb -> verb <> "" ->
               JS.split_spaces_limit 2 (verb ++ run) = [verb; ""]).
    { intros verb Hv Hvn. unfold JS.split_spaces_limit, JS.split_spaces.
      rewrite (TokenFacts.split_word false verb run _ _ Hv Hvn Hsplit).
      rewrite StringFacts.append_nil_r. reflexivity. }
    repeat split; try reflexivity.
    + unfold push_step. rewrite Hparts by (reflexivity || discriminate). reflexivity.
    + unfold push_step. rewrite Hparts by (reflexivity || discriminate). reflexivity.
Qed.

Lemma verb_without_argument_witness :
  push_step [] "visit  " = ok [goto_line (Some "")] /\
  push_step [] "wait" = ok [wait_line None].
Proof.
  split.
  - apply (proj1 (verb_without_argument [] "  " eq_refl)).
  - apply (proj1 (proj2 (verb_without_argument [] "" eq_refl))).
Defined.

(** ** The name of the image file *)

Module OutputFacts.
Import Path PathFacts StringFacts BasenameFacts.

Lemma take_while_forallb p l : forallb p (take_while p l) = true.
Proof.
  induction l as [|c l IH]; cbn; [reflexivity|].
  destruct (p c) eqn:E; cbn; [rewrite E; exact IH | reflexivity].
Qed.

Lemma take_while_length p l : (List.length (take_while p l) <= List.length l)%nat.
Proof.
  induction l as [|c l IH]; cbn; [lia|]. destruct (p c); cbn; lia.
Qed.

Lemma drop_while_length p l : (List.length (drop_while p l) <= List.length l)%nat.
Proof.
  induction l as [|c l IH]; cbn; [lia|]. destruct (p c); cbn; lia.
Qed.

Lemma component_rev_length path :
  (List.length (component_rev path) <= String.length path)%nat.
Proof.
  unfold component_rev.
  pose proof (take_while_length not_slash (drop_while is_slash (rev (chars path)))).
  pose proof (drop_while_length is_slash (rev (chars path))).
  rewrite length_rev, length_chars in *. lia.
Qed.

Lemma forallb_rev (p : ascii -> bool) l : forallb p l = true -> forallb p (rev l) = true.
Proof.
  rewrite !forallb_forall. intros H c Hc. apply H. apply in_rev. exact Hc.
Qed.

(** With the extension [.png], the last component is a stem and [.png]. *)
Lemma png_component path :
  extname path = ".png" ->
  exists stem_rev,
    stem_rev <> [] /\
    component_rev path = (rev (chars ".png") ++ stem_rev)%list.
Proof.
  intros Hext. unfold extname in Hext. set (c := component_rev path) in *.
  pose proof (take_drop_while not_dot c) as Hsplit.
  destruct (drop_while not_dot c) as [|d [|b stem_rev]] eqn:Hd; try discriminate.
  destruct (String.eqb _ ".."); try discriminate.
  apply drop_while_head in Hd. apply is_dot_eq in Hd. subst d.
  exists (b :: stem_rev). split; [discriminate|].
  apply (f_equal chars) in Hext. rewrite chars_text in Hext.
  apply (f_equal (@rev _)) in Hext. rewrite rev_involutive in Hext.
  rewrite <- Hsplit. rewrite <- Hext, <- app_assoc. reflexivity.
Qed.

Lemma basename_png path :
  extname path = ".png" ->
  exists stem, stem <> "" /\ no_slash stem /\ basename path ".png" = stem.
Proof.
  intros Hext. destruct (png_component path Hext) as (stem_rev & Hne & Hc).
  pose proof (component_rev_length path) as Hlen.
  pose proof (take_while_forallb not_slash (drop_while is_slash (rev (chars path)))) as Hplain.
  fold (component_rev path) in Hplain.
  rewrite Hc in Hlen, Hplain. rewrite length_app in Hlen.
  rewrite forallb_app in Hplain. apply andb_prop in Hplain. destruct Hplain as [_ Hplain].
  assert (Hpos : (0 < List.length stem_rev)%nat) by (destruct stem_rev; [congruence | cbn; lia]).
  change (List.length (rev (chars ".png"))) with 4%nat in Hlen.
  exists (text (rev stem_rev)). split; [|split].
  - intros E. apply (f_equal chars) in E. rewrite chars_text in E.
    apply (f_equal (@List.length _)) in E. rewrite length_rev in E. cbn in E. lia.
  - unfold no_slash. rewrite chars_text. apply forallb_rev. exact Hplain.
  - unfold basename. rewrite Hc.
    assert (H1 : (0 <? String.length ".png")%nat
                 && (String.length ".png" <=? String.length path)%nat = true).
    { apply andb_true_intro. split; [reflexivity|]. apply Nat.leb_le. cbn. lia. }
    rewrite H1.
    destruct (String.eqb_spec ".png" path) as [E|_].
    { rewrite <- E in Hlen. cbn in Hlen. lia. }
    assert (H2 : (List.length (rev (chars ".png"))
                  <? List.length (rev (chars ".png") ++ stem_rev))%nat
                 && starts_with (rev (chars ".png")) (rev (chars ".png") ++ stem_rev)
                 = true).
    { rewrite starts_with_app, length_app. apply andb_true_intro.
      split; [apply Nat.ltb_lt; lia | reflexivity]. }
    rewrite H2, skipn_app, Nat.sub_diag, skipn_all. reflexivity.
Qed.

Lemma length_text l : String.length (text l) = List.length l.
Proof. induction l as [|c l IH]; cbn; [reflexivity | f_equal; exact IH]. Qed.

Lemma extname_retina stem :
  no_slash stem -> extname (stem ++ "@2x.png") = ".png".
Proof.
  intros Hstem. unfold extname.
  rewrite component_rev_plain by (apply no_slash_app; [exact Hstem | reflexivity]).
  rewrite chars_app, rev_app_distr.
  set (l := rev (chars stem)).
  change (rev (chars "@2x.png")) with (["g"; "n"; "p"; "."; "x"; "2"; "@"]%char).
  cbn [app take_while drop_while].
  change (not_dot "g") with true. change (not_dot "n") with true.
  change (not_dot "p") with true. change (not_dot ".") with false.
  cbn iota.
  destruct (String.eqb_spec
              (text (rev ("g" :: "n" :: "p" :: "." :: "x" :: "2" :: "@" :: l)%char))
              "..") as [E|_]; [|reflexivity].
  apply (f_equal String.length) in E. rewrite length_text, length_rev in E.
  cbn in E. lia.
Qed.

End OutputFacts.

(** X6. Whatever passes validation is written as a [.png] file: the name of
    the output still has the extension [.png], and for a retina screenshot it
    is a non-empty stem without [/], followed by [@2x.png], so that the file
    lies directly in the directory of the document. *)
Theorem output_filename_is_png (args : Args) (vfile : VFile) :
  validate args vfile = inr tt ->
  Path.extname (output_filename args) = ".png" /\
  (JS.truthy (retina args) = true ->
   exists stem,
     stem <> "" /\ no_slash stem /\ output_filename args = stem ++ "@2x.png").
Proof.
  intros Hv. apply validate_success in Hv. destruct Hv as (_ & Hext & _).
  unfold output_filename. destruct (JS.truthy (retina args)).
  - destruct (OutputFacts.basename_png _ Hext) as (stem & Hne & Hplain & ->).
    split; [apply OutputFacts.extname_retina; exact Hplain|].
    intros _. exists stem. auto.
  - split; [exact Hext | discriminate].
Qed.

Lemma output_filename_is_png_witness :
  Path.extname
    (output_filename
       {| filename := "chapter-1/a.b.png"; alt := "x"; width := 10;
          height := Some 0%Z; x := Some 0%Z; y := Some 0%Z; retina := Some true |})
  = ".png".
Proof.
  apply (proj1 (output_filename_is_png
                  {| filename := "chapter-1/a.b.png"; alt := "x"; width := 10;
                     height := Some 0%Z; x := Some 0%Z; y := Some 0%Z;
                     retina := Some true |}
                  Sample.vfile eq_refl)).
Defined.

(** ** What is captured *)

(** X7. For arguments that were parsed and passed validation the options of
    [page.screenshot] lose nothing that was asked for: with height 0 both
    offsets are 0 and the whole page is captured; otherwise the clip holds
    the width, the height and both offsets as numbers. *)
Theorem offsets_reach_the_clip
    (Position Data : Type) (node : Code Position Data) (vfile : VFile)
    (args : Args) (path : string) :
  parseArgs node = inr args ->
  validate args vfile = inr tt ->
  exists h dx dy,
    height args = Some h /\ x args = Some dx /\ y args = Some dy /\
    if (h =? 0)%Z then
      dx = 0%Z /\ dy = 0%Z /\
      screenshot_options path args
      = JS.Object [("path", JS.Str path); ("type", JS.Str "png");
                   ("fullPage", JS.Bool true)]
    else
      screenshot_options path args
      = JS.Object [("path", JS.Str path); ("type", JS.Str "png");
                   ("clip", JS.Object [("width", JS.Number (width args));
                                       ("height", JS.Number h);
                                       ("x", JS.Number dx);
                                       ("y", JS.Number dy)])].
Proof.
  intros Hp Hv.
  destruct (parseArgs_fields _ _ _ _ Hp) as (_ & _ & _ & Eh & Ex & Ey & _).
  apply validate_success in Hv. destruct Hv as (_ & _ & _ & Hoff).
  assert (Hsome : forall given, exists n, optional given 0%Z = Some n)
    by (intros [n|]; cbn; eauto).
  destruct (Hsome (given_height (meta node))) as (h & Hh).
  destruct (Hsome (given_x (meta node))) as (dx & Hx).
  destruct (Hsome (given_y (meta node))) as (dy & Hy).
  rewrite Hh in Eh. rewrite Hx in Ex. rewrite Hy in Ey.
  exists h, dx, dy. repeat (split; [assumption|]).
  unfold screenshot_options. rewrite Eh, Ex, Ey in *. cbn [is_zero] in *.
  destruct (Z.eqb_spec h 0) as [->|Hh0]; cbn [negb orb JS.number_or_undefined] in *.
  - apply andb_prop in Hoff. destruct Hoff as [H1 H2].
    apply Z.eqb_eq in H1, H2. auto.
  - reflexivity.
Qed.

Lemma offsets_reach_the_clip_witness :
  screenshot_options "shot.png"
    {| filename := "shot.png"; alt := "The <Rental> component"; width := 1024;
       height := Some 512%Z; x := Some 5%Z; y := Some 0%Z; retina := Some false |}
  = JS.Object [("path", JS.Str "shot.png"); ("type", JS.Str "png");
               ("clip", JS.Object [("width", JS.Number 1024);
                                   ("height", JS.Number 512);
                                   ("x", JS.Number 5);
                                   ("y", JS.Number 0)])].
Proof.
  destruct (offsets_reach_the_clip nat unit
              (Sample.block (Sample.fields "shot.png" (Some 512%Z) (Some 5%Z) None))
              Sample.vfile _ "shot.png" eq_refl eq_refl)
    as (h & dx & dy & Hh & Hx & Hy & H).
  injection Hh as <-. injection Hx as <-. injection Hy as <-. exact H.
Defined.

(** ** The [img] element *)

Lemma img_tag_cases (src alt : string) (w h : Z) :
  img_tag src alt w h
  = if JS.includes escape_pattern src || JS.includes escape_pattern alt
    then throw (JsError ("Unknown character: `" ++ escape_pattern ++ "`"))
    else ok ("<img src=" ++ JS.quote src ++ " alt=" ++ JS.quote alt
             ++ " width=" ++ JS.quote (JS.number_to_string w)
             ++ " height=" ++ JS.quote (JS.number_to_string h) ++ ">").
Proof.
  unfold img_tag, attr at 1 2. cbn [JS.to_String].
  rewrite !AttrFacts.replace_all_escape.
  destruct (JS.includes escape_pattern src); [reflexivity|].
  cbn [rbind ok orb].
  destruct (JS.includes escape_pattern alt); [reflexivity|].
  cbn [rbind ok]. rewrite !AttrFacts.attr_number. reflexivity.
Qed.

(** X8. The [img] element is produced unless the url or the alt text holds
    the character sequence of the pattern of [attr]; the width and the height
    never make it fail. When it is produced, the four values stand in it as
    JSON string literals. *)
Theorem img_tag_fails_only_on_the_pattern (src alt : string) (w h : Z) :
  img_tag src alt w h
  = if JS.includes escape_pattern src || JS.includes escape_pattern alt
    then throw (JsError ("Unknown character: `" ++ escape_pattern ++ "`"))
    else ok ("<img src=" ++ JS.quote src ++ " alt=" ++ JS.quote alt
             ++ " width=" ++ JS.quote (JS.number_to_string w)
             ++ " height=" ++ JS.quote (JS.number_to_string h) ++ ">").
Proof. apply img_tag_cases. Qed.

(** X9. A retina screenshot whose alt text holds the sequence of the pattern
    of [attr] never succeeds; and when the image has been taken and read back,
    the failure is the exception of [attr], thrown after all four effects. *)
Theorem retina_alt_with_pattern_fails
    (Position Data : Type) (world : World) (node : Code Position Data)
    (options : Options) (vfile : VFile) (args : Args) :
  parseArgs node = inr args ->
  JS.truthy (retina args) = true ->
  JS.includes escape_pattern (alt args) = true ->
  let run := screenshot world node options vfile in
  (exists failure, outcome run = inl failure) /\
  (existsb is_image_size (trace_of run) = true ->
   image_size world (Path.join [directory options vfile; output_filename args]) <> None ->
   List.length (trace_of run) = 4%nat /\
   outcome run = throw (JsError ("Unknown character: `" ++ escape_pattern ++ "`"))).
Proof.
  intros Hp Hr Halt run. subst run. unfold screenshot.
  rewrite Hp. run_step.
  destruct (validate args vfile) as [e|[]]; run_step;
    [split; [eauto | discriminate]|].
  destruct (mkdirp_succeeds world _); run_step; [|split; [eauto | discriminate]].
  destruct (compile _ _ _) as [e|script]; run_step; [split; [eauto | discriminate]|].
  destruct (node_succeeds world script); run_step; [|split; [eauto | discriminate]].
  rewrite Hr. run_step.
  destruct (image_size world _) as [size|]; run_step;
    [|split; [eauto | intros _ H; congruence]].
  assert (Htag : img_tag ("/screenshots/" ++ namespace_of vfile ++ "/" ++ output_filename args)
                   (alt args) (fst size / 2) (snd size / 2)
                 = throw (JsError ("Unknown character: `" ++ escape_pattern ++ "`"))).
  { rewrite img_tag_cases, Halt, orb_true_r. reflexivity. }
  rewrite Htag. run_step. split; [eauto | intros _ _; split; reflexivity].
Qed.

Lemma retina_alt_with_pattern_fails_witness :
  let node : Code nat unit :=
    {| meta := {| given_filename := Some "pass.png";
                  given_alt := Some (escape_pattern ++ " in the alt text");
                  given_width := Some 1024%Z; given_height := None;
                  given_x := None; given_y := None; given_retina := Some true |};
       value := Sample.body; position := None; data := None |} in
  outcome (screenshot Sample.world node Sample.options Sample.vfile)
  = throw (JsError ("Unknown character: `" ++ escape_pattern ++ "`")).
Proof.
  intros node.
  apply (proj2 (retina_alt_with_pattern_fails nat unit Sample.world node
                  Sample.options Sample.vfile _ eq_refl eq_refl eq_refl)).
  - vm_compute. reflexivity.
  - vm_compute. discriminate.
Defined.

(** ** Paths below an absolute directory *)

Module CanonicalFacts.
Import Path PathFacts StringFacts JoinFacts NormalizeFacts.

Local Abbreviation cut := (JS.split slash).














End CanonicalFacts.





(** * Properties of the build script *)

Module GenerateFacts.
Import Generate.

Section Loop.

Variable W : Type.
Variable sys : System W.
Variable inv : Invocation.

(** The effects of one pass of the loop: the chapter is announced and read,
    then processed, then written; a failure ends the pass where it occurs. *)
Lemma chapter_cases inputPath w :
  let t := fst (chapter sys inv inputPath w) in
  let r := snd (chapter sys inv inputPath w) in
  read t = [inputPath] /\
  ((written t = [] /\ exists failure, r = inl failure) \/
   (written t = [outputPath inv inputPath])).
Proof.
  unfold chapter, bind, log, ask, call. cbn [fst snd app].
  destruct (readFile sys w inputPath) as [e|[contents w1]]; cbn [fst snd app].
  { split; [reflexivity | left; split; [reflexivity | eauto]]. }
  destruct (process sys w1 (config inv) _ contents) as [e|[result w2]]; cbn [fst snd app].
  { split; [reflexivity | left; split; [reflexivity | eauto]]. }
  split; [reflexivity | right; reflexivity].
Qed.

Lemma written_app t u : written (t ++ u) = (written t ++ written u)%list.
Proof. apply flat_map_app. Qed.

Lemma read_app t u : read (t ++ u) = (read t ++ read u)%list.
Proof. apply flat_map_app. Qed.

Lemma for_each_cases chapters w :
  let t := fst (for_each (chapter sys inv) chapters w) in
  let r := snd (for_each (chapter sys inv) chapters w) in
  exists k,
    (k <= List.length chapters)%nat /\
    written t = map (outputPath inv) (firstn k chapters) /\
    (read t = firstn k chapters \/ read t = firstn (S k) chapters) /\
    ((exists done, r = inr done) -> k = List.length chapters).
Proof.
  revert w. induction chapters as [|p chapters IH]; intros w.
  - exists 0%nat. cbn. repeat split; auto.
  - cbv zeta. cbn [for_each]. unfold bind.
    pose proof (chapter_cases p w) as Hc. cbv zeta in Hc.
    destruct (chapter sys inv p w) as [t1 [e|[[] w1]]]; cbn [fst snd] in *.
    + destruct Hc as (Hread & [(Hw & _) | Hw]).
      * exists 0%nat. rewrite Hw, Hread. cbn.
        repeat split; [lia | auto | intros (done & H); discriminate].
      * exists 1%nat. rewrite Hw, Hread. cbn.
        repeat split; [lia | auto | intros (done & H); discriminate].
    + destruct Hc as (Hread & [(_ & failure & H) | Hw]); [discriminate|].
      specialize (IH w1). cbv zeta in IH.
      destruct (for_each (chapter sys inv) chapters w1) as [t2 r2]; cbn [fst snd] in *.
      destruct IH as (k & Hk & Hwritten & Hreads & Hdone).
      exists (S k). rewrite written_app, read_app, Hw, Hread, Hwritten. cbn.
      repeat split.
      * lia.
      * destruct Hreads as [-> | ->]; auto.
      * intros H. f_equal. apply Hdone. exact H.
Qed.

(** One pass of the loop either builds the chapter, or fails having read it
    and written nothing with success. *)
Lemma chapter_outcome inputPath w :
  read (fst (chapter sys inv inputPath w)) = [inputPath] /\
  match snd (chapter sys inv inputPath w) with
  | inr (_, w') => built sys inv [inputPath] w w'
  | inl _ => True
  end.
Proof.
  unfold chapter, bind, log, ask, call. cbn [fst snd app].
  destruct (readFile sys w inputPath) as [e|[contents w1]] eqn:Hread; cbn [fst snd app].
  { split; [reflexivity | exact I]. }
  destruct (process sys w1 (config inv) _ contents) as [e|[result w2]] eqn:Hprocess;
    cbn [fst snd app].
  { split; [reflexivity | exact I]. }
  destruct (writeFile sys w2 (outputPath inv inputPath) result) as [e|w3] eqn:Hwrite;
    cbn [fst snd app].
  { split; [reflexivity | exact I]. }
  split; [reflexivity|]. econstructor; try eassumption. constructor.
Qed.

Lemma for_each_built chapters w :
  let t := fst (for_each (chapter sys inv) chapters w) in
  let r := snd (for_each (chapter sys inv) chapters w) in
  exists k w',
    (k <= List.length chapters)%nat /\
    built sys inv (firstn k chapters) w w' /\
    (forall done, r = inr done -> k = List.length chapters /\ done = (tt, w')) /\
    (forall failure,
       r = inl failure ->
       (k < List.length chapters)%nat /\
       read t = firstn (S k) chapters /\
       snd (chapter sys inv (nth k chapters "") w') = inl failure) /\
    (read t = firstn k chapters \/ read t = firstn (S k) chapters).
Proof.
  cbv zeta. revert w. induction chapters as [|p chapters IH]; intros w.
  - exists 0%nat, w. cbn [for_each ret fst snd firstn List.length read flat_map].
    split; [lia|]. split; [constructor|].
    split; [intros done [= <-]; split; reflexivity|].
    split; [intros failure H; discriminate H | left; reflexivity].
  - cbn [for_each]. unfold bind.
    pose proof (chapter_outcome p w) as (Hread & Hbuilt).
    destruct (chapter sys inv p w) as [t1 [e|[[] w1]]] eqn:Hchapter; cbn [fst snd] in *.
    + exists 0%nat, w. cbn [firstn nth List.length]. rewrite Hchapter, Hread.
      split; [lia|]. split; [constructor|].
      split; [intros done H; discriminate H|].
      split; [|right; reflexivity].
      intros failure [= <-]. split; [lia|]. split; reflexivity.
    + destruct (IH w1) as (k & w' & Hk & Hrest & Hdone & Hfail & Hreads).
      destruct (for_each (chapter sys inv) chapters w1) as [t2 r2]; cbn [fst snd] in *.
      exists (S k), w'. rewrite read_app, Hread. cbn [firstn nth List.length app].
      split; [lia|]. split.
      { inversion Hbuilt as [|? ? ? ? ? ? ? ? ? H1 H2 H3 H4]; subst.
        inversion H4; subst. econstructor; eassumption. }
      split; [intros done H; destruct (Hdone done H); split; [lia | assumption]|].
      split.
      { intros failure H. destruct (Hfail failure H) as (H1 & H2 & H3).
        split; [lia|]. split; [rewrite H2; reflexivity | exact H3]. }
      destruct Hreads as [-> | ->]; auto.
Qed.

End Loop.

End GenerateFacts.

(** X14. Once the assets are copied, both directories created and the
    chapters found, the script goes through the chapters in the order [glob]
    gave them. After the four effects of the set-up, the first [k] chapters
    have been built: each was read, processed and its result written with
    success at its output path, none left out. When the script succeeds, [k]
    is the number of chapters; when it fails, the failure is that of the pass
    over chapter [k], and the script has tried to read that chapter and none
    after it. *)
Theorem chapters_are_written_in_order
    (W : Type) (sys : Generate.System W) (inv : Generate.Invocation)
    (w w1 w2 w3 w4 : W) (chapters : list string) :
  Generate.ncp sys w (Path.join [Generate.project inv; "src"; "assets"])
    (Generate.assetsDir inv) = inr w1 ->
  Generate.mkdirp sys w1 (Generate.outDir inv) = inr w2 ->
  Generate.mkdirp sys w2 (Generate.codeDir inv) = inr w3 ->
  Generate.glob sys w3 (Generate.pattern inv) = inr (chapters, w4) ->
  exists k w' rest,
    fst (Generate.main sys inv w) = (Generate.the_setup inv ++ rest)%list /\
    (k <= List.length chapters)%nat /\
    Generate.built sys inv (firstn k chapters) w4 w' /\
    (forall done,
       snd (Generate.main sys inv w) = inr done ->
       k = List.length chapters /\ done = (tt, w')) /\
    (forall failure,
       snd (Generate.main sys inv w) = inl failure ->
       (k < List.length chapters)%nat /\
       Generate.read rest = firstn (S k) chapters /\
       snd (Generate.chapter sys inv (nth k chapters "") w') = inl failure) /\
    (Generate.read rest = firstn k chapters \/
     Generate.read rest = firstn (S k) chapters).
Proof.
  intros Hncp Hout Hcode Hglob.
  destruct (GenerateFacts.for_each_built W sys inv chapters w4)
    as (k & w' & Hk & Hbuilt & Hdone & Hfail & Hreads).
  exists k, w', (fst (Generate.for_each (Generate.chapter sys inv) chapters w4)).
  unfold Generate.main, Generate.setup, Generate.bind, Generate.call, Generate.ask.
  rewrite Hncp, Hout, Hcode. cbn [app]. rewrite Hglob.
  destruct (Generate.for_each (Generate.chapter sys inv) chapters w4) as [t r].
  cbn [fst snd] in *.
  split; [reflexivity|]. split; [exact Hk|]. split; [exact Hbuilt|].
  split; [exact Hdone|]. split; [exact Hfail | exact Hreads].
Qed.

Lemma chapters_are_written_in_order_witness :
  exists w',
    Generate.built Generate.sample_system Generate.sample_invocation
      ["src/chapters/01-intro.md"; "src/chapters/02-more.md"] tt w'.
Proof.
  destruct (chapters_are_written_in_order unit Generate.sample_system
              Generate.sample_invocation tt tt tt tt tt
              ["src/chapters/01-intro.md"; "src/chapters/02-more.md"]
              eq_refl eq_refl eq_refl eq_refl)
    as (k & w' & rest & _ & _ & Hbuilt & Hdone & _).
  destruct (Hdone (tt, tt) eq_refl) as [-> _].
  exists w'. exact Hbuilt.
Defined.




(** ** More on validation *)

(** X11. A width that is not positive is refused before any effect; when
    the document has a basename and the file name has the extension [.png],
    the failure is the assertion [width must be positive]. *)
Theorem nonpositive_width_rejected
    (Position Data : Type) (world : World) (node : Code Position Data)
    (options : Options) (vfile : VFile) (args : Args) :
  parseArgs node = inr args ->
  (width args <= 0)%Z ->
  exists failure,
    screenshot world node options vfile = ([], inl failure) /\
    (has_basename vfile = true ->
     Path.extname (filename args) = ".png" ->
     failure = AssertionFailure "width must be positive").
Proof.
  intros Hp Hw.
  assert (Hv : exists failure, validate args vfile = inl failure /\
            (has_basename vfile = true ->
             Path.extname (filename args) = ".png" ->
             failure = AssertionFailure "width must be positive")).
  { unfold validate.
    destruct (has_basename vfile); cbn [assert rbind ok throw];
      [|eexists; split; [reflexivity | discriminate]].
    destruct (String.eqb_spec (Path.extname (filename args)) ".png") as [E|E];
      cbn [assert rbind ok throw];
      [|eexists; split; [reflexivity | intros; contradiction]].
    destruct (Z.ltb_spec 0 (width args)); [lia|]. cbn [assert rbind ok throw].
    eexists; split; [reflexivity | auto]. }
  destruct Hv as (failure & Hv & Hmsg). exists failure. split; [|exact Hmsg].
  eapply screenshot_validation_failure; eassumption.
Qed.

Lemma nonpositive_width_rejected_witness :
  screenshot Sample.world
    ({| meta := {| given_filename := Some "shot.png"; given_alt := Some "x";
                   given_width := Some 0%Z; given_height := None;
                   given_x := None; given_y := None; given_retina := None |};
        value := Sample.body; position := None; data := None |} : Code nat unit)
    Sample.options Sample.vfile
  = ([], inl (AssertionFailure "width must be positive")).
Proof.
  destruct (nonpositive_width_rejected nat unit Sample.world
              {| meta := {| given_filename := Some "shot.png"; given_alt := Some "x";
                            given_width := Some 0%Z; given_height := None;
                            given_x := None; given_y := None; given_retina := None |};
                 value := Sample.body; position := None; data := None |}
              Sample.options Sample.vfile
              {| filename := "shot.png"; alt := "x"; width := 0;
                 height := Some 0%Z; x := Some 0%Z; y := Some 0%Z;
                 retina := Some false |}
              eq_refl ltac:(cbn; lia))
    as (failure & Hrun & Hmsg).
  rewrite Hrun, Hmsg; reflexivity.
Defined.

(** X12. A file without a basename, or with an empty one, is refused first:
    whatever the arguments, once they parse, the handler fails without any
    effect and the failure is the assertion [unknown basename]. *)
Theorem missing_basename_rejected
    (Position Data : Type) (world : World) (node : Code Position Data)
    (options : Options) (vfile : VFile) (args : Args) :
  parseArgs node = inr args ->
  vfile_basename vfile = None \/ vfile_basename vfile = Some "" ->
  screenshot world node options vfile
  = ([], inl (AssertionFailure "unknown basename")).
Proof.
  intros Hp Hb. eapply screenshot_validation_failure; [exact Hp|].
  unfold validate, has_basename. destruct Hb as [-> | ->]; reflexivity.
Qed.

Lemma missing_basename_rejected_witness :
  screenshot Sample.world
    (Sample.block (Sample.fields "shot.jpeg" None (Some 3%Z) None))
    Sample.options {| vfile_basename := None |}
  = ([], inl (AssertionFailure "unknown basename")).
Proof.
  apply (missing_basename_rejected nat unit Sample.world
           (Sample.block (Sample.fields "shot.jpeg" None (Some 3%Z) None))
           Sample.options {| vfile_basename := None |}
           {| filename := "shot.jpeg"; alt := "The <Rental> component";
              width := 1024; height := Some 0%Z; x := Some 3%Z;
              y := Some 0%Z; retina := Some false |}
           eq_refl (or_introl eq_refl)).
Defined.

(** ** The exit status of the build *)

Module ExitFacts.
Import Generate.

Section Quiet.

Variable W : Type.
Variable sys : System W.
Variable inv : Invocation.

Lemma bind_no_exit {A B} (m : Build W A) (k : A -> Build W B) w status :
  ~ In (Exit status) (fst (m w)) ->
  (forall a w', ~ In (Exit status) (fst (k a w'))) ->
  ~ In (Exit status) (fst (bind m k w)).
Proof.
  intros Hm Hk. unfold bind.
  destruct (m w) as [t [e|[a w']]]; cbn [fst] in *; [exact Hm|].
  specialize (Hk a w'). destruct (k a w') as [t' r]. cbn [fst] in *.
  intros H. apply in_app_or in H. tauto.
Qed.

Lemma chapter_no_exit inputPath w status :
  ~ In (Exit status) (fst (chapter sys inv inputPath w)).
Proof.
  unfold chapter. repeat (apply bind_no_exit; [|intros ? ?]);
    cbn; intros H; repeat (destruct H as [H|H]; [discriminate H|]); exact H.
Qed.

Lemma for_each_no_exit chapters w status :
  ~ In (Exit status) (fst (for_each (chapter sys inv) chapters w)).
Proof.
  revert w. induction chapters as [|p chapters IH]; intros w; cbn [for_each].
  - cbn. tauto.
  - apply bind_no_exit; [apply chapter_no_exit | intros _ w'; apply IH].
Qed.

Lemma main_no_exit w status : ~ In (Exit status) (fst (main sys inv w)).
Proof.
  unfold main. apply bind_no_exit.
  - unfold setup. repeat (apply bind_no_exit; [|intros ? ?]);
      cbn; intros H; repeat (destruct H as [H|H]; [discriminate H|]); exact H.
  - intros chapters w'. apply for_each_no_exit.
Qed.

End Quiet.

End ExitFacts.

(** X16. The script ends the process with a status only through its
    [catch]: an [Exit] occurs in a run exactly when some step failed, its
    status is then 1, and the run is the effects of [main] followed by the
    logging of the failure and that exit. A run without failure is the
    effects of [main] and nothing else. *)
Theorem exit_status_reports_failure
    (W : Type) (sys : Generate.System W) (inv : Generate.Invocation) (w : W) :
  (forall status,
     In (Generate.Exit status) (Generate.run sys inv w) <->
     status = 1%Z /\ exists failure, snd (Generate.main sys inv w) = inl failure)
  /\
  (forall failure,
     snd (Generate.main sys inv w) = inl failure ->
     Generate.run sys inv w
     = (fst (Generate.main sys inv w)
        ++ [Generate.ConsoleError failure; Generate.Exit 1])%list)
  /\
  ((exists done, snd (Generate.main sys inv w) = inr done) ->
   Generate.run sys inv w = fst (Generate.main sys inv w)).
Proof.
  pose proof (ExitFacts.main_no_exit W sys inv w) as Hquiet.
  unfold Generate.run.
  destruct (Generate.main sys inv w) as [t [e|done]]; cbn [fst snd] in *.
  - split; [|split].
    + intros status. split.
      * intros H. apply in_app_or in H. destruct H as [H|H]; [destruct (Hquiet _ H)|].
        destruct H as [H|[H|[]]]; [discriminate H|].
        injection H as <-. split; [reflexivity | eauto].
      * intros (-> & _). apply in_or_app. right. right. left. reflexivity.
    + intros failure [= <-]. reflexivity.
    + intros (done & H). discriminate H.
  - split; [|split].
    + intros status. split.
      * intros H. destruct (Hquiet _ H).
      * intros (_ & failure & H). discriminate H.
    + intros failure H. discriminate H.
    + intros _. reflexivity.
Qed.

Lemma exit_status_reports_failure_witness :
  Generate.run Generate.sample_system Generate.sample_invocation tt
  = fst (Generate.main Generate.sample_system Generate.sample_invocation tt).
Proof.
  apply (proj2 (proj2 (exit_status_reports_failure unit Generate.sample_system
                         Generate.sample_invocation tt))).
  eexists. vm_compute. reflexivity.
Defined.

(** ** Empty lines *)

Lemma push_steps_skip_empty script lines :
  push_steps script lines
  = push_steps script (filter (fun line => negb (String.eqb line "")) lines).
Proof.
  revert script. induction lines as [|line lines IH]; intros script; [reflexivity|].
  cbn [filter]. destruct (String.eqb_spec line "") as [->|Hne]; cbn [negb push_steps].
  - rewrite CompileFacts.push_step_empty. cbn [rbind ok]. apply IH.
  - destruct (push_step script line); cbn [rbind]; [reflexivity | apply IH].
Qed.

(** X13. Only the lines that are not empty count: two bodies with the same
    non-empty lines, in the same order, compile to the same program or fail
    with the same exception. Empty lines, a newline at the end of the body
    among them, change nothing. *)
Theorem empty_lines_do_not_matter (body body' path : string) (args : Args) :
  nonempty_lines body = nonempty_lines body' ->
  compile body path args = compile body' path args.
Proof.
  intros H. unfold compile.
  rewrite (push_steps_skip_empty _ (JS.split JS.newline body)).
  rewrite (push_steps_skip_empty _ (JS.split JS.newline body')).
  unfold nonempty_lines in H. rewrite H. reflexivity.
Qed.

Lemma empty_lines_do_not_matter_witness :
  compile "visit http://x
wait #ok" "shot.png" Sample.args
  = compile "
visit http://x

wait #ok
" "shot.png" Sample.args.
Proof.
  apply (empty_lines_do_not_matter "visit http://x
wait #ok" "
visit http://x

wait #ok
" "shot.png" Sample.args).
  reflexivity.
Defined.
